(** * Adaptive interview flow engine and interruption controller

    A shallow embedding of the adaptive-flow module (flow state, response
    analysis, difficulty update, question pipeline, the two flow endpoints)
    and of the interruption-handling utilities (metrics recorder and the
    interruption-aware message handler), followed by the properties proved
    about them.

    Conventions of the embedding.
    - A JavaScript number that holds an integer is a [Z]; this is exact for
      magnitudes below 2^53.  The one place where the source leaves the
      integers, the weighted blend [0.7 * current + 0.3 * suggestion] and the
      running average of the recorder, is computed in IEEE 754 binary64 with
      the operations of [SpecFloat].
    - The persistence layer, the text-generation service and the clock are
      collaborators: their behaviour is read from a [World] that scripts the
      outcome of each call, and the code runs in a state-and-error monad over
      that world.
    - [JSON.parse] is a parameter of the code that calls it; [parseJson] is a
      concrete parser for the fragment of JSON used in the examples.
    - A text is well-formed Unicode held as its UTF-8 bytes.
    - A response analysis is typed as the source declares it, with integer
      numbers; a reply of the service whose members are absent or of another
      type is outside the typed model, and the model says so where such a
      reply would enter the update ([OutsideModel]). *)

From Stdlib Require Import ZArith List Bool String Ascii Lia SpecFloat.
From stdpp Require Import base option strings gmap pretty.
Import ListNotations.
Local Open Scope Z_scope.
Set Warnings "-register-all".

(* ===================================================================== *)
(** * Numbers *)
(* ===================================================================== *)

Module Num.

(** binary64: 53 bits of precision, exponents below 1024. *)
Definition prec : Z := 53.
Definition emax : Z := 1024.

Definition ofZ (z : Z) : spec_float := binary_normalize prec emax z 0 false.
Definition mul : spec_float -> spec_float -> spec_float := SFmul prec emax.
Definition add : spec_float -> spec_float -> spec_float := SFadd prec emax.
Definition div : spec_float -> spec_float -> spec_float := SFdiv prec emax.

(** The literals [0.7], [0.3], [0.8] and [0.1] as the nearest doubles. *)
Definition lit_0_7 : spec_float := S754_finite false 6305039478318694 (-53).
Definition lit_0_3 : spec_float := S754_finite false 5404319552844595 (-54).
Definition lit_0_8 : spec_float := S754_finite false 7205759403792794 (-53).
Definition lit_0_1 : spec_float := S754_finite false 7205759403792794 (-56).

(** [Math.round]: the nearest integer, halves towards plus infinity, that
    is [floor (x + 1/2)] computed exactly.  NaN and the infinities are not
    integers; they are reported as [None]. *)
Definition Math_round_opt (x : spec_float) : option Z :=
  match x with
  | S754_zero _ => Some 0
  | S754_finite s m e =>
      let n := if s then Z.neg m else Z.pos m in
      Some (if 0 <=? e then n * 2 ^ e
            else (2 * n + 2 ^ (- e)) / 2 ^ (1 - e))
  | S754_infinity _ | S754_nan => None
  end.

(** [Math.round] as an integer.  An infinity is held as plus or minus
    2^1024, which lies beyond every finite double, so that [Math.min] and
    [Math.max] against a finite number choose as they do in the source.  NaN,
    which comes only from a difference of infinities, has no integer; the
    model holds 0 for it. *)
Definition Math_round (x : spec_float) : Z :=
  match x with
  | S754_infinity false => 2 ^ emax
  | S754_infinity true => - 2 ^ emax
  | _ => match Math_round_opt x with Some n => n | None => 0 end
  end.

End Num.

(* ===================================================================== *)
(** * Text and JSON values *)
(* ===================================================================== *)

Module Text.

Definition quote : ascii := "034"%char.
Definition apostrophe : ascii := "039"%char.
Definition backslash : ascii := "092"%char.

Definition nat_in (n : nat) (l : list nat) : bool := existsb (Nat.eqb n) l.

(** The white space and line terminators that [String.prototype.trim]
    removes, by their UTF-8 bytes: the six ASCII ones (tab, line feed,
    vertical tab, form feed, carriage return, space), U+00A0, U+1680,
    U+2000 to U+200A, U+2028, U+2029, U+202F, U+205F, U+3000 and U+FEFF. *)
Definition space1 (a : nat) : bool := nat_in a [9; 10; 11; 12; 13; 32]%nat.

Definition space2 (a b : nat) : bool := ((a =? 194) && (b =? 160))%nat.

Definition space3 (a b c : nat) : bool :=
  (((a =? 225) && (b =? 154) && (c =? 128))
   || ((a =? 226) && (b =? 128)
       && (((128 <=? c) && (c <=? 138)) || nat_in c [168; 169; 175]))
   || ((a =? 226) && (b =? 129) && (c =? 159))
   || ((a =? 227) && (b =? 128) && (c =? 128))
   || ((a =? 239) && (b =? 187) && (c =? 191)))%nat.

Definition codes (s : string) : list nat :=
  map nat_of_ascii (list_ascii_of_string s).

Definition text (l : list nat) : string :=
  string_of_list_ascii (map ascii_of_nat l).

(** White space dropped from the front of a list of bytes. *)
Fixpoint strip_start (l : list nat) : list nat :=
  match l with
  | [] => []
  | a :: r =>
      if space1 a then strip_start r
      else
        match r with
        | [] => l
        | b :: r2 =>
            if space2 a b then strip_start r2
            else
              match r2 with
              | [] => l
              | c :: r3 => if space3 a b c then strip_start r3 else l
              end
        end
  end.

(** The same on the reversed list, for the end of the text. *)
Fixpoint strip_end_rev (l : list nat) : list nat :=
  match l with
  | [] => []
  | c :: r =>
      if space1 c then strip_end_rev r
      else
        match r with
        | [] => l
        | b :: r2 =>
            if space2 b c then strip_end_rev r2
            else
              match r2 with
              | [] => l
              | a :: r3 => if space3 a b c then strip_end_rev r3 else l
              end
        end
  end.

Definition trim_left (s : string) : string := text (strip_start (codes s)).

Definition trim_right (s : string) : string :=
  text (rev (strip_end_rev (rev (codes s)))).

Definition trim (s : string) : string := trim_right (trim_left s).

Definition is_quote (c : ascii) : bool :=
  Ascii.eqb c quote || Ascii.eqb c apostrophe.

Fixpoint drop_last_quote (s : string) : string :=
  match s with
  | EmptyString => EmptyString
  | String c EmptyString => if is_quote c then EmptyString else s
  | String c r => String c (drop_last_quote r)
  end.

(** The replacement of the pattern "a quotation mark or an apostrophe at the
    start, or one at the end" by nothing, applied globally: one leading and
    one trailing mark are removed. *)
Definition unquote (s : string) : string :=
  match s with
  | String c r => if is_quote c then drop_last_quote r else drop_last_quote s
  | EmptyString => EmptyString
  end.

(** [Array.prototype.join]. *)
Definition join (sep : string) (l : list string) : string :=
  String.concat sep l.

(** [Array.prototype.includes] on strings. *)
Definition includes (l : list string) (k : string) : bool :=
  existsb (String.eqb k) l.

(** Truthiness of a string-valued property that may be absent. *)
Definition truthy_str (o : option string) : bool :=
  match o with
  | Some (String _ _) => true
  | _ => false
  end.

End Text.

Module Json.

Inductive t : Type :=
| JNull
| JBool (b : bool)
| JNum (n : Z)
| JStr (s : string)
| JArr (items : list t)
| JObj (fields : list (string * t)).

(** Property read on an object built by [JSON.parse]: of two members with
    the same name the later one stays. *)
Fixpoint getProp (k : string) (fields : list (string * t)) : option t :=
  match fields with
  | [] => None
  | (k', v) :: r =>
      match getProp k r with
      | Some v' => Some v'
      | None => if String.eqb k k' then Some v else None
      end
  end.

Definition isArray (v : t) : bool :=
  match v with JArr _ => true | _ => false end.

Definition asNum (v : t) : option Z :=
  match v with JNum n => Some n | _ => None end.

Definition asStr (v : t) : option string :=
  match v with JStr s => Some s | _ => None end.

Fixpoint asStrs (l : list t) : option (list string) :=
  match l with
  | [] => Some []
  | v :: r =>
      match asStr v, asStrs r with
      | Some s, Some ss => Some (s :: ss)
      | _, _ => None
      end
  end.

(** ** A parser for the examples

    Objects, arrays, strings with the single-character escapes, integers
    and the three literals; input outside this fragment (fractions,
    exponents, [\u] escapes) is declined. *)

Definition is_ws (c : ascii) : bool :=
  Text.nat_in (nat_of_ascii c) [9; 10; 13; 32]%nat.

Fixpoint skip_ws (s : string) : string :=
  match s with
  | String c r => if is_ws c then skip_ws r else s
  | EmptyString => EmptyString
  end.

Definition digit_of (c : ascii) : option Z :=
  let n := nat_of_ascii c in
  if (48 <=? n)%nat && (n <=? 57)%nat then Some (Z.of_nat n - 48) else None.

Fixpoint read_digits (acc : Z) (s : string) : Z * string :=
  match s with
  | String c r =>
      match digit_of c with
      | Some d => read_digits (10 * acc + d) r
      | None => (acc, s)
      end
  | EmptyString => (acc, s)
  end.

Definition starts_fraction (s : string) : bool :=
  match s with
  | String c _ => Text.nat_in (nat_of_ascii c) [46; 69; 101]%nat
  | EmptyString => false
  end.

(** An unsigned integer without a leading zero, not followed by a
    fraction or an exponent. *)
Definition read_nat (s : string) : option (Z * string) :=
  match s with
  | String c r =>
      match digit_of c with
      | Some 0 => if starts_fraction r then None else Some (0, r)
      | Some d =>
          let '(n, r') := read_digits d r in
          if starts_fraction r' then None else Some (n, r')
      | None => None
      end
  | EmptyString => None
  end.

Definition unescape (c : ascii) : option ascii :=
  match nat_of_ascii c with
  | 34%nat => Some Text.quote
  | 92%nat => Some Text.backslash
  | 47%nat => Some "/"%char
  | 98%nat => Some "008"%char
  | 102%nat => Some "012"%char
  | 110%nat => Some "010"%char
  | 114%nat => Some "013"%char
  | 116%nat => Some "009"%char
  | _ => None
  end.

(** The characters of a string literal after its opening quote. *)
Fixpoint read_string (s : string) : option (string * string) :=
  match s with
  | EmptyString => None
  | String c r =>
      if Ascii.eqb c Text.quote then Some (EmptyString, r)
      else if Ascii.eqb c Text.backslash then
        match r with
        | String e r' =>
            match unescape e, read_string r' with
            | Some c', Some (body, rest) => Some (String c' body, rest)
            | _, _ => None
            end
        | EmptyString => None
        end
      else if (nat_of_ascii c <? 32)%nat then None
      else
        match read_string r with
        | Some (body, rest) => Some (String c body, rest)
        | None => None
        end
  end.

Definition expect (word : string) (v : t) (s : string) : option (t * string) :=
  if String.prefix word s
  then Some (v, String.substring (String.length word)
                  (String.length s - String.length word) s)
  else None.

Fixpoint parse_value (fuel : nat) (s : string) : option (t * string) :=
  match fuel with
  | O => None
  | S fuel' =>
      match skip_ws s with
      | EmptyString => None
      | String c r =>
          if Ascii.eqb c "n" then expect "ull" JNull r
          else if Ascii.eqb c "t" then expect "rue" (JBool true) r
          else if Ascii.eqb c "f" then expect "alse" (JBool false) r
          else if Ascii.eqb c Text.quote then
            match read_string r with
            | Some (body, rest) => Some (JStr body, rest)
            | None => None
            end
          else if Ascii.eqb c "-" then
            match read_nat r with
            | Some (n, rest) => Some (JNum (- n), rest)
            | None => None
            end
          else if Ascii.eqb c "[" then
            match skip_ws r with
            | String c' r' =>
                if Ascii.eqb c' "]" then Some (JArr [], r')
                else
                  match parse_items fuel' r with
                  | Some (vs, rest) => Some (JArr vs, rest)
                  | None => None
                  end
            | EmptyString => None
            end
          else if Ascii.eqb c "{" then
            match skip_ws r with
            | String c' r' =>
                if Ascii.eqb c' "}" then Some (JObj [], r')
                else
                  match parse_members fuel' r with
                  | Some (ms, rest) => Some (JObj ms, rest)
                  | None => None
                  end
            | EmptyString => None
            end
          else
            match read_nat (String c r) with
            | Some (n, rest) => Some (JNum n, rest)
            | None => None
            end
      end
  end
with parse_items (fuel : nat) (s : string) : option (list t * string) :=
  match fuel with
  | O => None
  | S fuel' =>
      match parse_value fuel' s with
      | Some (v, r) =>
          match skip_ws r with
          | String c r' =>
              if Ascii.eqb c "," then
                match parse_items fuel' r' with
                | Some (vs, rest) => Some (v :: vs, rest)
                | None => None
                end
              else if Ascii.eqb c "]" then Some ([v], r')
              else None
          | EmptyString => None
          end
      | None => None
      end
  end
with parse_members (fuel : nat) (s : string)
  : option (list (string * t) * string) :=
  match fuel with
  | O => None
  | S fuel' =>
      match skip_ws s with
      | String q r =>
          if Ascii.eqb q Text.quote then
            match read_string r with
            | Some (k, r1) =>
                match skip_ws r1 with
                | String c r2 =>
                    if Ascii.eqb c ":" then
                      match parse_value fuel' r2 with
                      | Some (v, r3) =>
                          match skip_ws r3 with
                          | String c' r4 =>
                              if Ascii.eqb c' "," then
                                match parse_members fuel' r4 with
                                | Some (ms, rest) => Some ((k, v) :: ms, rest)
                                | None => None
                                end
                              else if Ascii.eqb c' "}" then Some ([(k, v)], r4)
                              else None
                          | EmptyString => None
                          end
                      | None => None
                      end
                    else None
                | EmptyString => None
                end
            | None => None
            end
          else None
      | EmptyString => None
      end
  end.

(** [None] stands for the [SyntaxError] of [JSON.parse]. *)
Definition parseJson (s : string) : option t :=
  match parse_value (2 * String.length s + 2) s with
  | Some (v, rest) =>
      match skip_ws rest with
      | EmptyString => Some v
      | String _ _ => None
      end
  | None => None
  end.

End Json.

Import Json(JNull, JBool, JNum, JStr, JArr, JObj).


(* ===================================================================== *)
(** * The adaptive flow module *)
(* ===================================================================== *)

Module AdaptiveFlow.

(** The analysis as the source declares it.  Its numbers are integers: a
    parsed reply in which a member is absent or is not an integer number is
    not a value of this type. *)
Record ResponseAnalysis : Type := {
  a_mvpKeywords : list string;
  confidence : Z;
  technicalAccuracy : Z;
  completeness : Z;
  overallScore : Z;
  suggestedNextDifficulty : Z;
  reasoning : string
}.

Record QuestionRecord : Type := {
  question : string;
  timestamp : string;
  difficulty : Z;
  category : string
}.

Record AdaptiveFlowState : Type := {
  sessionId : string;
  currentDifficulty : Z;
  baseDifficulty : Z;
  consecutiveCorrect : Z;
  consecutiveIncorrect : Z;
  totalQuestions : Z;
  questionsAsked : Z;
  mvpKeywords : list string;
  role : string;
  techStack : list string;
  questionHistory : list QuestionRecord;
  lastAnalysis : option ResponseAnalysis
}.

Record QuestionGenerationRequest : Type := {
  rq_sessionId : string;
  rq_userResponse : string;
  rq_currentQuestion : string;
  rq_flowState : AdaptiveFlowState
}.

(** ** Response analyses as run-time values *)

(** The object literal of an analysis, members in the order of the source. *)
Definition encodeAnalysis (a : ResponseAnalysis) : Json.t :=
  JObj [ ("mvpKeywords"%string, JArr (map JStr (a_mvpKeywords a)));
         ("confidence"%string, JNum (confidence a));
         ("technicalAccuracy"%string, JNum (technicalAccuracy a));
         ("completeness"%string, JNum (completeness a));
         ("overallScore"%string, JNum (overallScore a));
         ("suggestedNextDifficulty"%string, JNum (suggestedNextDifficulty a));
         ("reasoning"%string, JStr (reasoning a)) ].

Definition numProp (k : string) (fields : list (string * Json.t)) : option Z :=
  match Json.getProp k fields with Some v => Json.asNum v | None => None end.

(** The typed view of a parsed value: defined when the value is an object
    that carries the seven members of [ResponseAnalysis] with their declared
    types. *)
Definition asAnalysis (v : Json.t) : option ResponseAnalysis :=
  match v with
  | JObj fields =>
      match Json.getProp "mvpKeywords" fields with
      | Some (JArr items) =>
          match Json.asStrs items,
                numProp "confidence" fields,
                numProp "technicalAccuracy" fields,
                numProp "completeness" fields,
                numProp "overallScore" fields,
                numProp "suggestedNextDifficulty" fields,
                Json.getProp "reasoning" fields with
          | Some kws, Some c, Some ta, Some co, Some os, Some sd,
            Some (JStr r) =>
              Some {| a_mvpKeywords := kws; confidence := c;
                      technicalAccuracy := ta; completeness := co;
                      overallScore := os; suggestedNextDifficulty := sd;
                      reasoning := r |}
          | _, _, _, _, _, _, _ => None
          end
      | _ => None
      end
  | _ => None
  end.

(** The default analysis returned when the reply does not parse. *)
Definition fallbackAnalysis (currentDifficulty : Z) : ResponseAnalysis :=
  {| a_mvpKeywords := [];
     confidence := 5;
     technicalAccuracy := 5;
     completeness := 5;
     overallScore := 5;
     suggestedNextDifficulty := currentDifficulty;
     reasoning := "Unable to analyze response properly" |}.

(** ** updateFlowState *)

(** [Math.round(0.7 * current + 0.3 * suggestion)] in binary64. *)
Definition blend (current suggestion : Z) : Z :=
  Num.Math_round
    (Num.add (Num.mul Num.lit_0_7 (Num.ofZ current))
             (Num.mul Num.lit_0_3 (Num.ofZ suggestion))).

Definition maxDeviation : Z := 3.

Definition updateFlowState (flowState : AdaptiveFlowState)
    (analysis : ResponseAnalysis) : AdaptiveFlowState :=
  (* Update MVP keywords (keep unique keywords) *)
  let newKeywords :=
    List.filter (fun keyword => negb (Text.includes (mvpKeywords flowState) keyword))
                (a_mvpKeywords analysis) in
  let keywords := mvpKeywords flowState ++ newKeywords in
  (* Update consecutive counters based on overall score *)
  let '(correct, incorrect) :=
    if 7 <=? overallScore analysis
    then (consecutiveCorrect flowState + 1, 0)
    else if overallScore analysis <=? 4
    then (0, consecutiveIncorrect flowState + 1)
    else (consecutiveCorrect flowState, consecutiveIncorrect flowState) in
  (* Adjust difficulty based on performance *)
  let '(newDifficulty, correct, incorrect) :=
    if 3 <=? correct
    then (Z.min 10 (currentDifficulty flowState + 1), 0, incorrect)
    else if 2 <=? incorrect
    then (Z.max 1 (currentDifficulty flowState - 1), correct, 0)
    else (blend (currentDifficulty flowState) (suggestedNextDifficulty analysis),
          correct, incorrect) in
  (* Keep difficulty within bounds and not too far from base *)
  let newDifficulty :=
    Z.max (baseDifficulty flowState - maxDeviation)
          (Z.min (baseDifficulty flowState + maxDeviation) newDifficulty) in
  {| sessionId := sessionId flowState;
     currentDifficulty := newDifficulty;
     baseDifficulty := baseDifficulty flowState;
     consecutiveCorrect := correct;
     consecutiveIncorrect := incorrect;
     totalQuestions := totalQuestions flowState;
     questionsAsked := questionsAsked flowState + 1;
     mvpKeywords := keywords;
     role := role flowState;
     techStack := techStack flowState;
     questionHistory := questionHistory flowState;
     lastAnalysis := Some analysis |}.

(** The state after a sequence of rounds. *)
Definition updateFlowStates (flowState : AdaptiveFlowState)
    (analyses : list ResponseAnalysis) : AdaptiveFlowState :=
  fold_left updateFlowState analyses flowState.

(** ** The difficulty rule in the words of the specification

    The cascade of section 4.2, the clamp around the base and then the
    further clamp to [1,10]. *)
Definition clamp (lo hi x : Z) : Z := Z.max lo (Z.min hi x).

(** The blend in exact arithmetic, halves rounded up. *)
Definition exact_blend (current suggestion : Z) : Z :=
  (7 * current + 3 * suggestion + 5) / 10.

Definition spec_newDifficulty (flowState : AdaptiveFlowState)
    (analysis : ResponseAnalysis) : Z :=
  let correct :=
    if 7 <=? overallScore analysis then consecutiveCorrect flowState + 1
    else if overallScore analysis <=? 4 then 0
    else consecutiveCorrect flowState in
  let incorrect :=
    if 7 <=? overallScore analysis then 0
    else if overallScore analysis <=? 4 then consecutiveIncorrect flowState + 1
    else consecutiveIncorrect flowState in
  let newDifficulty :=
    if 3 <=? correct then Z.min 10 (currentDifficulty flowState + 1)
    else if 2 <=? incorrect then Z.max 1 (currentDifficulty flowState - 1)
    else blend (currentDifficulty flowState) (suggestedNextDifficulty analysis) in
  clamp 1 10
    (clamp (baseDifficulty flowState - 3) (baseDifficulty flowState + 3)
       newDifficulty).

(** ** Collaborators

    The document store, the generation service and the clock.  Each call to
    the store consumes one entry of [dbFaults] ([true]: the call rejects);
    each call to the generation service consumes one entry of [genReplies]
    ([None]: the call rejects).  An exhausted fault script means no more
    faults; an exhausted reply script means the service is unavailable. *)

Inductive Error : Type :=
| PersistenceError
| GenerationError
| TypeError
| OutsideModel.

Inductive Outcome (A : Type) : Type :=
| Throws (e : Error)
| Returns (a : A).
Arguments Throws {A} e.
Arguments Returns {A} a.

Record World : Type := {
  store : gmap string AdaptiveFlowState;
  dbFaults : list bool;
  genReplies : list (option string);
  isoNow : string
}.

Definition M (A : Type) : Type := World -> Outcome A * World.

Definition ret {A} (a : A) : M A := fun w => (Returns a, w).

Definition throw {A} (e : Error) : M A := fun w => (Throws e, w).

Definition bind {A B} (m : M A) (k : A -> M B) : M B :=
  fun w =>
    match m w with
    | (Returns a, w') => k a w'
    | (Throws e, w') => (Throws e, w')
    end.

Definition tryCatch {A} (m : M A) (handler : Error -> M A) : M A :=
  fun w =>
    match m w with
    | (Returns a, w') => (Returns a, w')
    | (Throws e, w') => handler e w'
    end.

Notation "'let*' x ':=' c 'in' k" := (bind c (fun x => k))
  (at level 10, x name, c at level 100, k at level 200).
Notation "'await' c 'in' k" := (bind c (fun _ => k))
  (at level 10, c at level 100, k at level 200).

Definition set_store (m : gmap string AdaptiveFlowState) (w : World) : World :=
  {| store := m; dbFaults := dbFaults w; genReplies := genReplies w;
     isoNow := isoNow w |}.

Definition set_dbFaults (l : list bool) (w : World) : World :=
  {| store := store w; dbFaults := l; genReplies := genReplies w;
     isoNow := isoNow w |}.

Definition set_genReplies (l : list (option string)) (w : World) : World :=
  {| store := store w; dbFaults := dbFaults w; genReplies := l;
     isoNow := isoNow w |}.

(** The outcome of the next call to the store. *)
Definition next_fault (w : World) : bool * World :=
  match dbFaults w with
  | [] => (false, w)
  | b :: rest => (b, set_dbFaults rest w)
  end.

(** [db.collection(...).doc(sessionId).set(flowState)]: a full replacement
    of the document, or a rejection that leaves the store as it was. *)
Definition db_set (sessionId : string) (flowState : AdaptiveFlowState) : M unit :=
  fun w =>
    let '(fault, w') := next_fault w in
    if fault then (Throws PersistenceError, w')
    else (Returns tt, set_store (<[sessionId := flowState]> (store w')) w').

(** [db.collection(...).doc(sessionId).get()] followed by
    [doc.exists ? doc.data() : null]. *)
Definition db_get (sessionId : string) : M (option AdaptiveFlowState) :=
  fun w =>
    let '(fault, w') := next_fault w in
    if fault then (Throws PersistenceError, w')
    else (Returns (store w' !! sessionId), w').

(** [generateText]: the reply does not depend on the model on the prompt. *)
Definition generateText : M string :=
  fun w =>
    match genReplies w with
    | Some text :: rest => (Returns text, set_genReplies rest w)
    | None :: rest => (Throws GenerationError, set_genReplies rest w)
    | [] => (Throws GenerationError, w)
    end.

(** [new Date().toISOString()]. *)
Definition toISOString_now : M string := fun w => (Returns (isoNow w), w).

(** ** The operations of the module *)

Definition initializeFlowState (sessionId role : string) (techStack : list string)
    (baseDifficulty : Z) (totalQuestions : option Z) : M AdaptiveFlowState :=
  let flowState :=
    {| sessionId := sessionId;
       currentDifficulty := baseDifficulty;
       baseDifficulty := baseDifficulty;
       consecutiveCorrect := 0;
       consecutiveIncorrect := 0;
       totalQuestions := default 10 totalQuestions;
       questionsAsked := 0;
       mvpKeywords := [];
       role := role;
       techStack := techStack;
       questionHistory := [];
       lastAnalysis := None |} in
  (* Store in database *)
  await db_set sessionId flowState in
  ret flowState.

(** The three questions returned when the reply does not parse. *)
Definition fallbackQuestions (role : string) (techStack : list string)
  : list Json.t :=
  let tech :=
    match techStack with
    | String c r :: _ => String c r
    | _ => "your tech stack"%string
    end in
  [ JStr ("Tell me about your experience with " ++ role ++ " positions.")%string;
    JStr ("How would you approach a challenging problem in " ++ tech ++ "?")%string;
    JStr "Describe a time when you had to learn a new technology quickly." ].

Section WithParser.

(** [JSON.parse]; [None] is its [SyntaxError]. *)
Variable JSON_parse : string -> option Json.t.

Definition generateInitialQuestions (role : string) (techStack : list string)
    (difficulty : Z) : M (list Json.t) :=
  let* questionsResponse := generateText in
  match JSON_parse (Text.trim questionsResponse) with
  | Some (JArr questions) => ret questions
  | Some _ => ret []
  | None => ret (fallbackQuestions role techStack)
  end.

Definition analyzeUserResponse (userResponse currentQuestion role : string)
    (techStack : list string) (currentDifficulty : Z) : M Json.t :=
  let* analysisResponse := generateText in
  match JSON_parse (Text.trim analysisResponse) with
  | Some analysis => ret analysis
  | None => ret (encodeAnalysis (fallbackAnalysis currentDifficulty))
  end.

(** Whether a parsed value is an object with an array under
    [mvpKeywords]. *)
Definition hasKeywordArray (analysis : Json.t) : bool :=
  match analysis with
  | JObj fields =>
      match Json.getProp "mvpKeywords" fields with
      | Some (JArr _) => true
      | _ => false
      end
  | _ => false
  end.

(** The value returned by [analyzeUserResponse] enters [updateFlowState]
    under the type [ResponseAnalysis].  A value without a keyword array
    makes the source raise a [TypeError] at [analysis.mvpKeywords.filter],
    and so does the model.  A value that has the array but is not a
    [ResponseAnalysis] in another member runs on in the source with values
    that the typed model does not hold; the model stops there with
    [OutsideModel], which is not an error of the source. *)
Definition typed (analysis : Json.t) : M ResponseAnalysis :=
  if hasKeywordArray analysis then
    match asAnalysis analysis with
    | Some a => ret a
    | None => throw OutsideModel
    end
  else throw TypeError.

Definition push_history (flowState : AdaptiveFlowState) (r : QuestionRecord)
  : AdaptiveFlowState :=
  {| sessionId := sessionId flowState;
     currentDifficulty := currentDifficulty flowState;
     baseDifficulty := baseDifficulty flowState;
     consecutiveCorrect := consecutiveCorrect flowState;
     consecutiveIncorrect := consecutiveIncorrect flowState;
     totalQuestions := totalQuestions flowState;
     questionsAsked := questionsAsked flowState;
     mvpKeywords := mvpKeywords flowState;
     role := role flowState;
     techStack := techStack flowState;
     questionHistory := questionHistory flowState ++ [r];
     lastAnalysis := lastAnalysis flowState |}.

Definition generateNextQuestion (request : QuestionGenerationRequest) : M string :=
  let flowState := rq_flowState request in
  (* Analyze the user's response first *)
  let* analysisValue :=
    analyzeUserResponse (rq_userResponse request) (rq_currentQuestion request)
      (role flowState) (techStack flowState) (currentDifficulty flowState) in
  let* analysis := typed analysisValue in
  (* Update flow state *)
  let updatedState := updateFlowState flowState analysis in
  (* Save updated state to database *)
  await db_set (sessionId flowState) updatedState in
  (* Generate next question based on updated state *)
  let* nextQuestion := generateText in
  let question := Text.unquote (Text.trim nextQuestion) in
  (* Add to question history *)
  let* now := toISOString_now in
  let finalState :=
    push_history updatedState
      {| question := question;
         timestamp := now;
         difficulty := currentDifficulty updatedState;
         category := "adaptive" |} in
  (* Save final state *)
  await db_set (sessionId flowState) finalState in
  ret question.

End WithParser.

Definition getFlowState (sessionId : string) : M (option AdaptiveFlowState) :=
  tryCatch (db_get sessionId) (fun _ => ret None).

Definition shouldContinueInterview (flowState : AdaptiveFlowState) : bool :=
  questionsAsked flowState <? totalQuestions flowState.

Definition newline : string := String "010"%char EmptyString.

Definition generateInterviewSummary (flowState : AdaptiveFlowState) : string :=
  let difficultyProgression :=
    Text.join " → " (map (fun q => pretty (difficulty q)) (questionHistory flowState)) in
  ("Interview Summary:" ++ newline ++
   "- Questions Asked: " ++ pretty (questionsAsked flowState) ++ "/" ++
     pretty (totalQuestions flowState) ++ newline ++
   "- Difficulty Progression: " ++ difficultyProgression ++ newline ++
   "- Final Difficulty: " ++ pretty (currentDifficulty flowState) ++
     "/10 (Started at " ++ pretty (baseDifficulty flowState) ++ "/10)" ++ newline ++
   "- Key Topics Covered: " ++ Text.join ", " (mvpKeywords flowState) ++ newline ++
   "- Consecutive Correct Streak: " ++ pretty (consecutiveCorrect flowState))%string.

End AdaptiveFlow.

(* ===================================================================== *)
(** * The flow endpoints *)
(* ===================================================================== *)

(** [POST next-question]. *)
Module NextQuestionRoute.
Import AdaptiveFlow.

Record Body : Type := {
  b_sessionId : option string;
  b_userResponse : option string;
  b_currentQuestion : option string
}.

Inductive Reply : Type :=
| Failure (status : Z) (error : string)
| Completed (message summary : string)
| Continue (nextQuestion : string) (flowState : option AdaptiveFlowState)
    (questionsRemaining : Z).

(** [x?.field || 0] on a state that may be null. *)
Definition orZero (f : AdaptiveFlowState -> Z) (o : option AdaptiveFlowState) : Z :=
  match o with Some fs => f fs | None => 0 end.

Definition handle (JSON_parse : string -> option Json.t) (body : Body) : M Reply :=
  match b_sessionId body, b_userResponse body, b_currentQuestion body with
  | Some (String c1 r1), Some (String c2 r2), Some (String c3 r3) =>
      let sessionId := String c1 r1 in
      (* Get current flow state *)
      let* flowState := getFlowState sessionId in
      match flowState with
      | None =>
          ret (Failure 404 "Flow state not found. Please initialize first.")
      | Some flowState =>
          (* Check if interview should continue *)
          if negb (shouldContinueInterview flowState)
          then ret (Completed "Interview completed"
                      (generateInterviewSummary flowState))
          else
            (* Generate next question *)
            let questionRequest :=
              {| rq_sessionId := sessionId;
                 rq_userResponse := String c2 r2;
                 rq_currentQuestion := String c3 r3;
                 rq_flowState := flowState |} in
            let* nextQuestion := generateNextQuestion JSON_parse questionRequest in
            (* Get updated flow state *)
            let* updatedFlowState := getFlowState sessionId in
            ret (Continue nextQuestion updatedFlowState
                   (orZero totalQuestions updatedFlowState
                    - orZero questionsAsked updatedFlowState))
      end
  | _, _, _ =>
      (* Validate required parameters *)
      ret (Failure 400 "Missing required parameters")
  end.

(** The handler inside its [try]: whatever is thrown becomes a 500. *)
Definition POST (JSON_parse : string -> option Json.t) (body : Body)
  : World -> Reply * World :=
  fun w =>
    match handle JSON_parse body w with
    | (Returns reply, w') => (reply, w')
    | (Throws _, w') => (Failure 500 "Failed to generate next question", w')
    end.

End NextQuestionRoute.

(** [POST initialize-flow]. *)
Module InitializeFlowRoute.
Import AdaptiveFlow.

(** [techStack] in the request: a single string or an array of strings. *)
Inductive TechStackInput : Type :=
| One (s : string)
| Many (l : list string).

Record Body : Type := {
  b_sessionId : option string;
  b_role : option string;
  b_techStack : option TechStackInput;
  b_baseDifficulty : option Z;
  b_totalQuestions : option Z
}.

Inductive Reply : Type :=
| Failure (status : Z) (error : string)
| Initialized (flowState : AdaptiveFlowState) (initialQuestions : list Json.t)
    (message : string).

(** [Array.isArray(techStack) ? techStack : [techStack]]. *)
Definition asArray (t : TechStackInput) : list string :=
  match t with One s => [s] | Many l => l end.

Definition truthy_techStack (t : option TechStackInput) : bool :=
  match t with
  | Some (One EmptyString) | None => false
  | Some _ => true
  end.

(** [totalQuestions || 10]. *)
Definition orTen (o : option Z) : Z :=
  match o with
  | Some n => if n =? 0 then 10 else n
  | None => 10
  end.

Definition handle (JSON_parse : string -> option Json.t) (body : Body) : M Reply :=
  match b_sessionId body, b_role body, b_techStack body, b_baseDifficulty body with
  | Some (String c1 r1), Some (String c2 r2), Some techStack, Some baseDifficulty =>
      if truthy_techStack (Some techStack) then
        (* Initialize adaptive flow state *)
        let* flowState :=
          initializeFlowState (String c1 r1) (String c2 r2) (asArray techStack)
            baseDifficulty (Some (orTen (b_totalQuestions body))) in
        (* Generate initial questions *)
        let* initialQuestions :=
          generateInitialQuestions JSON_parse (String c2 r2) (asArray techStack)
            baseDifficulty in
        ret (Initialized flowState initialQuestions
               "Adaptive flow initialized successfully")
      else ret (Failure 400 "Missing required parameters")
  | _, _, _, _ =>
      (* Validate required parameters *)
      ret (Failure 400 "Missing required parameters")
  end.

Definition POST (JSON_parse : string -> option Json.t) (body : Body)
  : World -> Reply * World :=
  fun w =>
    match handle JSON_parse body w with
    | (Returns reply, w') => (reply, w')
    | (Throws _, w') => (Failure 500 "Failed to initialize adaptive flow", w')
    end.

End InitializeFlowRoute.

(* ===================================================================== *)
(** * Interruption handling *)
(* ===================================================================== *)

Module Interruption.

Record InterruptionConfig : Type := {
  vadSensitivity : spec_float;
  silenceThreshold : Z;
  speechStartThreshold : spec_float;
  maxInterruptionDelay : Z;
  speechCancellationTimeout : Z;
  enableLogging : bool;
  enableMetrics : bool
}.

Definition DEFAULT_INTERRUPTION_CONFIG : InterruptionConfig :=
  {| vadSensitivity := Num.lit_0_8;
     silenceThreshold := 150;
     speechStartThreshold := Num.lit_0_1;
     maxInterruptionDelay := 200;
     speechCancellationTimeout := 100;
     enableLogging := true;
     enableMetrics := true |}.

(** A delay statistic: a number of milliseconds or [Infinity]. *)
Inductive Delay : Type :=
| Infinity
| Ms (d : Z).

Record InterruptionMetrics : Type := {
  totalInterruptions : Z;
  averageInterruptionDelay : spec_float;
  fastestInterruption : Delay;
  slowestInterruption : Z;
  successfulCancellations : Z;
  failedCancellations : Z;
  lastInterruptionTime : option Z
}.

Record InterruptionHandler : Type := {
  config : InterruptionConfig;
  metrics : InterruptionMetrics;
  interruptionTimes : list Z
}.

Definition createEmptyMetrics : InterruptionMetrics :=
  {| totalInterruptions := 0;
     averageInterruptionDelay := S754_zero false;
     fastestInterruption := Infinity;
     slowestInterruption := 0;
     successfulCancellations := 0;
     failedCancellations := 0;
     lastInterruptionTime := None |}.

(** The constructor called with the default configuration. *)
Definition new_InterruptionHandler (config : InterruptionConfig) : InterruptionHandler :=
  {| config := config; metrics := createEmptyMetrics; interruptionTimes := [] |}.

Definition with_metrics (m : InterruptionMetrics) (h : InterruptionHandler)
  : InterruptionHandler :=
  {| config := config h; metrics := m; interruptionTimes := interruptionTimes h |}.

Definition recordSuccessfulCancellation (h : InterruptionHandler)
  : InterruptionHandler :=
  let m := metrics h in
  with_metrics
    {| totalInterruptions := totalInterruptions m;
       averageInterruptionDelay := averageInterruptionDelay m;
       fastestInterruption := fastestInterruption m;
       slowestInterruption := slowestInterruption m;
       successfulCancellations := successfulCancellations m + 1;
       failedCancellations := failedCancellations m;
       lastInterruptionTime := lastInterruptionTime m |} h.

Definition recordFailedCancellation (h : InterruptionHandler)
  : InterruptionHandler :=
  let m := metrics h in
  with_metrics
    {| totalInterruptions := totalInterruptions m;
       averageInterruptionDelay := averageInterruptionDelay m;
       fastestInterruption := fastestInterruption m;
       slowestInterruption := slowestInterruption m;
       successfulCancellations := successfulCancellations m;
       failedCancellations := failedCancellations m + 1;
       lastInterruptionTime := lastInterruptionTime m |} h.

Definition resetMetrics (h : InterruptionHandler) : InterruptionHandler :=
  {| config := config h; metrics := createEmptyMetrics; interruptionTimes := [] |}.

(** [delay < fastest]. *)
Definition below (delay : Z) (fastest : Delay) : bool :=
  match fastest with
  | Infinity => true
  | Ms d => delay <? d
  end.

(** [times.reduce((sum, time) => sum + time, 0)]. *)
Definition sum (times : list Z) : Z := fold_left Z.add times 0.

(** The recorder also writes to the console when [enableLogging] is set;
    the console is not part of the state. *)
Definition recordInterruption (h : InterruptionHandler)
    (aiSpeechStartTime userSpeechDetectedTime : Z) : InterruptionHandler :=
  let delay := userSpeechDetectedTime - aiSpeechStartTime in
  let times := interruptionTimes h ++ [delay] in
  let m := metrics h in
  {| config := config h;
     metrics :=
       {| totalInterruptions := totalInterruptions m + 1;
          averageInterruptionDelay :=
            Num.div (Num.ofZ (sum times)) (Num.ofZ (Z.of_nat (length times)));
          fastestInterruption :=
            if below delay (fastestInterruption m) then Ms delay
            else fastestInterruption m;
          slowestInterruption :=
            if slowestInterruption m <? delay then delay
            else slowestInterruption m;
          successfulCancellations := successfulCancellations m;
          failedCancellations := failedCancellations m;
          lastInterruptionTime := Some userSpeechDetectedTime |};
     interruptionTimes := times |}.

Definition isAcceptableDelay (h : InterruptionHandler) (delay : Z) : bool :=
  delay <=? maxInterruptionDelay (config h).

(** ** The message handler *)

(** A transport message; a property that is absent is [None]. *)
Record Message : Type := {
  type : string;
  role : option string;
  transcriptType : option string;
  status : option string;
  transcript : option string
}.

Inductive Callback : Type :=
| onInterruption
| onSpeechStart
| onSpeechEnd.

(** The closure made by [createInterruptionAwareMessageHandler]: the
    recorder it was given, its variable [aiSpeechStartTime] and the calls it
    has made to its three callbacks, oldest first. *)
Record HandlerState : Type := {
  handler : InterruptionHandler;
  aiSpeechStartTime : option Z;
  calls : list Callback
}.

Definition createInterruptionAwareMessageHandler (h : InterruptionHandler)
  : HandlerState :=
  {| handler := h; aiSpeechStartTime := None; calls := [] |}.

Definition propIs (s : string) (o : option string) : bool :=
  match o with Some s' => String.eqb s s' | None => false end.

(** Truthiness of [aiSpeechStartTime]: set, and not the number zero. *)
Definition started (st : HandlerState) : option Z :=
  match aiSpeechStartTime st with
  | Some t => if t =? 0 then None else Some t
  | None => None
  end.

Definition call (c : Callback) (st : HandlerState) : HandlerState :=
  {| handler := handler st; aiSpeechStartTime := aiSpeechStartTime st;
     calls := calls st ++ [c] |}.

Definition set_start (t : option Z) (st : HandlerState) : HandlerState :=
  {| handler := handler st; aiSpeechStartTime := t; calls := calls st |}.

Definition record (start timestamp : Z) (st : HandlerState) : HandlerState :=
  {| handler := recordInterruption (handler st) start timestamp;
     aiSpeechStartTime := aiSpeechStartTime st; calls := calls st |}.

(** One run of the returned function on [message], [timestamp] being the
    value of [Date.now()] at its start. *)
Definition onMessage (st : HandlerState) (timestamp : Z) (message : Message)
  : HandlerState :=
  (* Track AI speech timing *)
  let st :=
    if String.eqb (type message) "speech-start" && propIs "assistant" (role message)
    then call onSpeechStart (set_start (Some timestamp) st)
    else st in
  let st :=
    if String.eqb (type message) "speech-end" && propIs "assistant" (role message)
    then call onSpeechEnd (set_start None st)
    else st in
  (* Detect user interruptions with high precision *)
  let st :=
    if String.eqb (type message) "transcript" && propIs "user" (role message)
    then
      match propIs "partial" (transcriptType message), started st with
      | true, Some start => call onInterruption (record start timestamp st)
      | _, _ => st
      end
    else st in
  (* Handle explicit interruption events *)
  let st :=
    if String.eqb (type message) "user-interrupted"
    then
      call onInterruption
        match started st with
        | Some start => record start timestamp st
        | None => st
        end
    else st in
  (* Handle voice input detection *)
  let st :=
    match String.eqb (type message) "voice-input", started st with
    | true, Some start => call onInterruption (record start timestamp st)
    | _, _ => st
    end in
  (* Handle speech updates for fine-grained control *)
  let st :=
    if String.eqb (type message) "speech-update" && propIs "user" (role message)
       && propIs "started" (status message)
    then
      match started st with
      | Some start => call onInterruption (record start timestamp st)
      | None => st
      end
    else st in
  st.

End Interruption.

(* ===================================================================== *)
(** * The flow-status and analyze-response endpoints *)
(* ===================================================================== *)

(** [GET flow-status] and [DELETE flow-status]. *)
Module FlowStatusRoute.
Import AdaptiveFlow.

Inductive Reply : Type :=
| Failure (status : Z) (error : string)
| Status (flowState : AdaptiveFlowState) (shouldContinue : bool) (summary : string)
| Cleaned (message : string).

(** [db.collection(...).doc(sessionId).delete()]: the document is removed,
    whether or not it existed, or the call rejects and the store stays. *)
Definition db_delete (sessionId : string) : M unit :=
  fun w =>
    let '(fault, w') := next_fault w in
    if fault then (Throws PersistenceError, w')
    else (Returns tt, set_store (delete sessionId (store w')) w').

(** [sessionId] is the value of [searchParams.get]: a string or null. *)
Definition handleGET (sessionId : option string) : M Reply :=
  match sessionId with
  | Some (String c r) =>
      let* flowState := getFlowState (String c r) in
      match flowState with
      | None => ret (Failure 404 "Flow state not found")
      | Some flowState =>
          ret (Status flowState (shouldContinueInterview flowState)
                 (generateInterviewSummary flowState))
      end
  | _ => ret (Failure 400 "Session ID is required")
  end.

Definition GET (sessionId : option string) : World -> Reply * World :=
  fun w =>
    match handleGET sessionId w with
    | (Returns reply, w') => (reply, w')
    | (Throws _, w') => (Failure 500 "Failed to get flow status", w')
    end.

Definition handleDELETE (sessionId : option string) : M Reply :=
  match sessionId with
  | Some (String c r) =>
      (* Clean up adaptive flow state (for testing/cleanup purposes) *)
      await db_delete (String c r) in
      ret (Cleaned "Adaptive flow state cleaned up successfully")
  | _ => ret (Failure 400 "Session ID is required")
  end.

Definition DELETE (sessionId : option string) : World -> Reply * World :=
  fun w =>
    match handleDELETE sessionId w with
    | (Returns reply, w') => (reply, w')
    | (Throws _, w') => (Failure 500 "Failed to cleanup flow state", w')
    end.

End FlowStatusRoute.

(** [POST analyze-response]. *)
Module AnalyzeResponseRoute.
Import AdaptiveFlow.

Record Body : Type := {
  b_userResponse : option string;
  b_currentQuestion : option string;
  b_role : option string;
  b_techStack : option InitializeFlowRoute.TechStackInput;
  b_currentDifficulty : option Z
}.

Inductive Reply : Type :=
| Failure (status : Z) (error : string)
| Analyzed (analysis : Json.t) (message : string).

(** [Array.isArray(techStack) ? techStack : [techStack] || []].  An absent
    [techStack] gives the one-element array of [undefined], which the prompt
    joins to the empty text, as it does the array of the empty string. *)
Definition asArray (t : option InitializeFlowRoute.TechStackInput) : list string :=
  match t with
  | Some (InitializeFlowRoute.Many l) => l
  | Some (InitializeFlowRoute.One s) => [s]
  | None => [EmptyString]
  end.

(** [currentDifficulty || 5]. *)
Definition orFive (o : option Z) : Z :=
  match o with
  | Some n => if n =? 0 then 5 else n
  | None => 5
  end.

Definition handle (JSON_parse : string -> option Json.t) (body : Body) : M Reply :=
  match b_userResponse body, b_currentQuestion body, b_role body with
  | Some (String c1 r1), Some (String c2 r2), Some (String c3 r3) =>
      (* Analyze the user response *)
      let* analysis :=
        analyzeUserResponse JSON_parse (String c1 r1) (String c2 r2)
          (String c3 r3) (asArray (b_techStack body))
          (orFive (b_currentDifficulty body)) in
      ret (Analyzed analysis "Response analyzed successfully")
  | _, _, _ =>
      (* Validate required parameters *)
      ret (Failure 400 "Missing required parameters")
  end.

Definition POST (JSON_parse : string -> option Json.t) (body : Body)
  : World -> Reply * World :=
  fun w =>
    match handle JSON_parse body w with
    | (Returns reply, w') => (reply, w')
    | (Throws _, w') => (Failure 500 "Failed to analyze response", w')
    end.

End AnalyzeResponseRoute.

(* ===================================================================== *)
(** * The recorder in the interview component *)
(* ===================================================================== *)

Module AgentComponent.
Import Interruption.

(** What the [onMessage] listener of the component does to the recorder it
    holds: for every message it makes a new interruption-aware handler around
    the recorder and passes the message to it.  The other effects of the
    listener are on the state of the user interface. *)
Definition onMessage_recorder (interruptionHandler : InterruptionHandler)
    (timestamp : Z) (message : Message) : InterruptionHandler :=
  handler
    (onMessage (createInterruptionAwareMessageHandler interruptionHandler)
       timestamp message).

(** The recorder after a sequence of messages, each with its clock reading. *)
Definition onMessages_recorder (interruptionHandler : InterruptionHandler)
    (events : list (Z * Message)) : InterruptionHandler :=
  fold_left (fun h e => onMessage_recorder h (fst e) (snd e)) events
    interruptionHandler.

End AgentComponent.

(* ===================================================================== *)
(** * Predicates of the specification *)
(* ===================================================================== *)

Import AdaptiveFlow.

Definition in_scale (n : Z) : Prop := 1 <= n <= 10.

(** A flow state within the documented ranges, the current difficulty at
    most three away from the base. *)
Definition valid_state (fs : AdaptiveFlowState) : Prop :=
  in_scale (baseDifficulty fs) /\ in_scale (currentDifficulty fs) /\
  Z.abs (currentDifficulty fs - baseDifficulty fs) <= 3.

Definition valid_analysis (a : ResponseAnalysis) : Prop :=
  in_scale (confidence a) /\ in_scale (technicalAccuracy a) /\
  in_scale (completeness a) /\ in_scale (overallScore a) /\
  in_scale (suggestedNextDifficulty a).

(** At most one streak counter is nonzero and neither is negative. *)
Definition streaks_ok (fs : AdaptiveFlowState) : Prop :=
  (consecutiveCorrect fs = 0 \/ consecutiveIncorrect fs = 0) /\
  0 <= consecutiveCorrect fs /\ 0 <= consecutiveIncorrect fs.

(** A state as [initializeFlowState] leaves it, at base difficulty [d]. *)
Definition fresh_at (d : Z) (fs : AdaptiveFlowState) : Prop :=
  baseDifficulty fs = d /\ currentDifficulty fs = d /\
  consecutiveCorrect fs = 0 /\ consecutiveIncorrect fs = 0 /\
  questionsAsked fs = 0.

Definition scale : list Z := [1; 2; 3; 4; 5; 6; 7; 8; 9; 10].

(** Where the binary64 blend leaves the exact one: the two inputs whose
    exact value is a half that the doubles miss from below. *)
Definition blend_misses_half (current suggestion : Z) : bool :=
  ((current =? 6) && (suggestion =? 1)) || ((current =? 7) && (suggestion =? 2)).

(** ** Sample data *)

(** The state that [initializeFlowState] builds for a front-end session at
    base difficulty [d]. *)
Definition freshState (d : Z) : AdaptiveFlowState :=
  {| sessionId := "session-1"; currentDifficulty := d; baseDifficulty := d;
     consecutiveCorrect := 0; consecutiveIncorrect := 0;
     totalQuestions := 10; questionsAsked := 0; mvpKeywords := [];
     role := "Frontend Developer"; techStack := ["React"; "TypeScript"]%string;
     questionHistory := []; lastAnalysis := None |}.

(** An analysis with the given keywords, overall score and suggestion. *)
Definition analysisOf (keywords : list string) (score suggestion : Z)
  : ResponseAnalysis :=
  {| a_mvpKeywords := keywords; confidence := score;
     technicalAccuracy := score; completeness := score;
     overallScore := score; suggestedNextDifficulty := suggestion;
     reasoning := "sample" |}.


(** A string between quotation marks, as in a JSON text. *)
Definition quoted (s : string) : string :=
  String Text.quote (s ++ String Text.quote EmptyString).

(** A world with the given documents, store faults and generation
    replies. *)
Definition worldOf (documents : gmap string AdaptiveFlowState)
    (faults : list bool) (replies : list (option string)) : World :=
  {| store := documents; dbFaults := faults; genReplies := replies;
     isoNow := "2025-01-01T00:00:00.000Z" |}.

(** A session whose ten questions have all been asked. *)
Definition finishedState : AdaptiveFlowState :=
  {| sessionId := "session-1"; currentDifficulty := 6; baseDifficulty := 5;
     consecutiveCorrect := 1; consecutiveIncorrect := 0;
     totalQuestions := 10; questionsAsked := 10;
     mvpKeywords := ["React"; "hooks"]%string;
     role := "Frontend Developer"; techStack := ["React"; "TypeScript"]%string;
     questionHistory :=
       [ {| question := "What is a closure?"; timestamp := "2025-01-01T00:00:00.000Z";
            difficulty := 5; category := "adaptive" |};
         {| question := "How does reconciliation work?";
            timestamp := "2025-01-01T00:01:00.000Z";
            difficulty := 6; category := "adaptive" |} ];
     lastAnalysis := None |}.

Definition requestOf (flowState : AdaptiveFlowState) : QuestionGenerationRequest :=
  {| rq_sessionId := sessionId flowState;
     rq_userResponse := "I would use a hook";
     rq_currentQuestion := "How do you share state?";
     rq_flowState := flowState |}.

(** The request that carries the answer to the last question. *)
Definition finalAnswerBody : NextQuestionRoute.Body :=
  {| NextQuestionRoute.b_sessionId := Some "session-1"%string;
     NextQuestionRoute.b_userResponse := Some "My final answer"%string;
     NextQuestionRoute.b_currentQuestion := Some "Last question?"%string |}.

(** ** Transport events *)

(** The assistant starts to speak. *)
Definition assistant_speech_start (m : Interruption.Message) : Prop :=
  Interruption.type m = "speech-start"%string /\
  Interruption.role m = Some "assistant"%string.

(** A partial transcript of the user with a text that is not empty. *)
Definition user_partial_transcript (m : Interruption.Message) : Prop :=
  Interruption.type m = "transcript"%string /\
  Interruption.role m = Some "user"%string /\
  Interruption.transcriptType m = Some "partial"%string /\
  Text.truthy_str (Interruption.transcript m) = true.

(** The four events that count as an interruption. *)
Definition interruption_class (m : Interruption.Message) : bool :=
  (String.eqb (Interruption.type m) "transcript"
   && Interruption.propIs "user" (Interruption.role m)
   && Interruption.propIs "partial" (Interruption.transcriptType m))
  || String.eqb (Interruption.type m) "user-interrupted"
  || String.eqb (Interruption.type m) "voice-input"
  || (String.eqb (Interruption.type m) "speech-update"
      && Interruption.propIs "user" (Interruption.role m)
      && Interruption.propIs "started" (Interruption.status m)).

Definition speechStartMessage : Interruption.Message :=
  {| Interruption.type := "speech-start";
     Interruption.role := Some "assistant"%string;
     Interruption.transcriptType := None;
     Interruption.status := None;
     Interruption.transcript := None |}.

Definition partialTranscriptMessage (text : string) : Interruption.Message :=
  {| Interruption.type := "transcript";
     Interruption.role := Some "user"%string;
     Interruption.transcriptType := Some "partial"%string;
     Interruption.status := None;
     Interruption.transcript := Some text |}.

Definition voiceInputMessage : Interruption.Message :=
  {| Interruption.type := "voice-input";
     Interruption.role := None;
     Interruption.transcriptType := None;
     Interruption.status := None;
     Interruption.transcript := None |}.

(** The closure right after its creation around a new recorder. *)
Definition newHandlerState : Interruption.HandlerState :=
  Interruption.createInterruptionAwareMessageHandler
    (Interruption.new_InterruptionHandler Interruption.DEFAULT_INTERRUPTION_CONFIG).

(** ** Further predicates and sample data *)

(** Streak counters as they are between rounds: a correct streak of at most
    two, an incorrect streak of at most one. *)
Definition streaks_small (fs : AdaptiveFlowState) : Prop :=
  0 <= consecutiveCorrect fs <= 2 /\ 0 <= consecutiveIncorrect fs <= 1.

(** The handler applied to a sequence of messages, each with the clock
    reading at its arrival. *)
Definition onMessages (st : Interruption.HandlerState)
    (events : list (Z * Interruption.Message)) : Interruption.HandlerState :=
  fold_left (fun st e => Interruption.onMessage st (fst e) (snd e)) events st.

(** The assistant stops speaking. *)
Definition assistant_speech_end (m : Interruption.Message) : Prop :=
  Interruption.type m = "speech-end"%string /\
  Interruption.role m = Some "assistant"%string.

(** The calls that a client can make on a recorder. *)
Inductive RecorderCall : Type :=
| CallRecord (aiSpeechStartTime userSpeechDetectedTime : Z)
| CallSuccess
| CallFailed
| CallReset.

Definition recorderCall (h : Interruption.InterruptionHandler) (c : RecorderCall)
  : Interruption.InterruptionHandler :=
  match c with
  | CallRecord start detected => Interruption.recordInterruption h start detected
  | CallSuccess => Interruption.recordSuccessfulCancellation h
  | CallFailed => Interruption.recordFailedCancellation h
  | CallReset => Interruption.resetMetrics h
  end.

Definition recorderCalls (h : Interruption.InterruptionHandler)
    (cs : list RecorderCall) : Interruption.InterruptionHandler :=
  fold_left recorderCall cs h.

(** The delay statistics agree with the recorded delays: the count is their
    number, the fastest is their minimum ([Infinity] when there is none) and
    the slowest is their maximum, or 0 when none of them is positive. *)
Definition metrics_agree (h : Interruption.InterruptionHandler) : Prop :=
  let m := Interruption.metrics h in
  let times := Interruption.interruptionTimes h in
  Interruption.totalInterruptions m = Z.of_nat (length times) /\
  match Interruption.fastestInterruption m with
  | Interruption.Infinity => times = []
  | Interruption.Ms f => In f times /\ forall d, In d times -> f <= d
  end /\
  0 <= Interruption.slowestInterruption m /\
  (forall d, In d times -> d <= Interruption.slowestInterruption m) /\
  (Interruption.slowestInterruption m = 0 \/
   In (Interruption.slowestInterruption m) times).

Definition speechEndMessage : Interruption.Message :=
  {| Interruption.type := "speech-end";
     Interruption.role := Some "assistant"%string;
     Interruption.transcriptType := None;
     Interruption.status := None;
     Interruption.transcript := None |}.

Definition userInterruptedMessage : Interruption.Message :=
  {| Interruption.type := "user-interrupted";
     Interruption.role := None;
     Interruption.transcriptType := None;
     Interruption.status := None;
     Interruption.transcript := None |}.

(** A request to the initialize-flow endpoint with every parameter. *)
Definition initializeBody (baseDifficulty : Z) (totalQuestions : option Z)
  : InitializeFlowRoute.Body :=
  {| InitializeFlowRoute.b_sessionId := Some "session-1"%string;
     InitializeFlowRoute.b_role := Some "Frontend Developer"%string;
     InitializeFlowRoute.b_techStack := Some (InitializeFlowRoute.One "React");
     InitializeFlowRoute.b_baseDifficulty := Some baseDifficulty;
     InitializeFlowRoute.b_totalQuestions := totalQuestions |}.

(** A request to the analyze-response endpoint without a difficulty. *)
Definition analyzeBody : AnalyzeResponseRoute.Body :=
  {| AnalyzeResponseRoute.b_userResponse := Some "I would use a hook"%string;
     AnalyzeResponseRoute.b_currentQuestion := Some "How do you share state?"%string;
     AnalyzeResponseRoute.b_role := Some "Frontend Developer"%string;
     AnalyzeResponseRoute.b_techStack := None;
     AnalyzeResponseRoute.b_currentDifficulty := None |}.

(** The handler while the assistant speaks, the speech having started at
    the given clock reading. *)
Definition speakingState : Interruption.HandlerState :=
  Interruption.onMessage newHandlerState 1700000000000 speechStartMessage.

(** The request of a retry after the second write was rejected: the same
    answer and question, with the flow state that the first write stored and
    that the endpoint reads back. *)
Definition retryOf (request : QuestionGenerationRequest)
    (analysis : ResponseAnalysis) : QuestionGenerationRequest :=
  {| rq_sessionId := rq_sessionId request;
     rq_userResponse := rq_userResponse request;
     rq_currentQuestion := rq_currentQuestion request;
     rq_flowState := updateFlowState (rq_flowState request) analysis |}.

(** Case analysis on every test of the update. *)
Ltac split_cascade :=
  unfold updateFlowState, spec_newDifficulty, clamp, maxDeviation;
  repeat match goal with
         | |- context [if ?b then _ else _] => destruct b eqn:?; simpl
         end.

(* ===================================================================== *)
(** * The difficulty controller *)
(* ===================================================================== *)

Section Blend.

Lemma in_scale_In n : in_scale n -> In n scale.
Proof.
  unfold in_scale, scale. intros H.
  assert (n = 1 \/ n = 2 \/ n = 3 \/ n = 4 \/ n = 5 \/ n = 6 \/ n = 7 \/
          n = 8 \/ n = 9 \/ n = 10) as Hn by lia.
  simpl. intuition auto.
Qed.

Lemma forall_scale2 (P : Z -> Z -> bool) :
  forallb (fun c => forallb (P c) scale) scale = true ->
  forall c s, in_scale c -> in_scale s -> P c s = true.
Proof.
  intros H c s Hc Hs.
  rewrite forallb_forall in H.
  specialize (H c (in_scale_In c Hc)).
  rewrite forallb_forall in H.
  exact (H s (in_scale_In s Hs)).
Qed.

(** On the scale the blend of the source is the exact blend rounded half
    up, one less at (6,1) and (7,2). *)
Lemma blend_on_scale c s :
  in_scale c -> in_scale s ->
  blend c s = if blend_misses_half c s then exact_blend c s - 1
              else exact_blend c s.
Proof.
  intros Hc Hs. apply Z.eqb_eq.
  revert c s Hc Hs.
  apply (forall_scale2 (fun c s =>
    blend c s =? (if blend_misses_half c s then exact_blend c s - 1
                  else exact_blend c s))).
  vm_compute. reflexivity.
Qed.

Lemma blend_in_scale c s : in_scale c -> in_scale s -> in_scale (blend c s).
Proof.
  intros Hc Hs. rewrite (blend_on_scale c s Hc Hs).
  unfold in_scale, exact_blend in *.
  assert (1 <= (7 * c + 3 * s + 5) / 10 <= 10) as Hq.
  { split.
    - apply Z.div_le_lower_bound; lia.
    - apply Z.lt_succ_r, Z.div_lt_upper_bound; lia. }
  destruct (blend_misses_half c s) eqn:Hm; [|exact Hq].
  unfold blend_misses_half in Hm.
  apply orb_true_iff in Hm as [Hm | Hm]; apply andb_true_iff in Hm as [H1 H2];
    apply Z.eqb_eq in H1, H2; subst; vm_compute; split; discriminate.
Qed.

End Blend.

Section DifficultyController.

Implicit Types (fs : AdaptiveFlowState) (a : ResponseAnalysis).

(** The fields that [updateFlowState] copies. *)
Lemma updateFlowState_frame fs a :
  baseDifficulty (updateFlowState fs a) = baseDifficulty fs /\
  totalQuestions (updateFlowState fs a) = totalQuestions fs /\
  questionsAsked (updateFlowState fs a) = questionsAsked fs + 1 /\
  questionHistory (updateFlowState fs a) = questionHistory fs /\
  sessionId (updateFlowState fs a) = sessionId fs.
Proof.
  unfold updateFlowState.
  destruct (7 <=? overallScore a), (overallScore a <=? 4); simpl;
    repeat match goal with |- context [if ?b then _ else _] => destruct b end;
    simpl; auto.
Qed.

(** C1. For a flow state and an analysis within their documented ranges,
    [updateFlowState] keeps the base difficulty and returns a current
    difficulty within three of the base and within [1,10]; the result is the
    value of the specification's rule, whose last step clamps to [1,10]. *)
Theorem updateFlowState_difficulty_bounds fs a :
  valid_state fs -> valid_analysis a ->
  baseDifficulty (updateFlowState fs a) = baseDifficulty fs /\
  baseDifficulty fs - 3 <= currentDifficulty (updateFlowState fs a)
    <= baseDifficulty fs + 3 /\
  1 <= currentDifficulty (updateFlowState fs a) <= 10 /\
  currentDifficulty (updateFlowState fs a) = spec_newDifficulty fs a.
Proof.
  intros (Hb & Hc & Hdev) (_ & _ & _ & _ & Hs).
  pose proof (blend_in_scale _ _ Hc Hs) as Hbl.
  unfold in_scale in *.
  split; [apply updateFlowState_frame|].
  split_cascade; lia.
Qed.

Lemma updateFlowState_difficulty_bounds_witness :
  valid_state (freshState 1) /\ valid_analysis (analysisOf ["hooks"%string] 2 1) /\
  1 <= currentDifficulty
         (updateFlowState (freshState 1) (analysisOf ["hooks"%string] 2 1)) <= 10.
Proof.
  assert (Hfs : valid_state (freshState 1))
    by (unfold valid_state, in_scale; simpl; lia).
  assert (Ha : valid_analysis (analysisOf ["hooks"%string] 2 1))
    by (unfold valid_analysis, in_scale; simpl; lia).
  split; [exact Hfs|]. split; [exact Ha|].
  exact (proj1 (proj2 (proj2 (updateFlowState_difficulty_bounds _ _ Hfs Ha)))).
Defined.

(** One round keeps the streak invariant. *)
Lemma updateFlowState_streaks fs a : streaks_ok fs -> streaks_ok (updateFlowState fs a).
Proof.
  unfold streaks_ok. intros H.
  unfold updateFlowState.
  repeat match goal with
         | |- context [if ?b then _ else _] => destruct b eqn:?; simpl
         end; lia.
Qed.

Lemma updateFlowStates_streaks analyses fs :
  streaks_ok fs -> streaks_ok (updateFlowStates fs analyses).
Proof.
  unfold updateFlowStates. revert fs.
  induction analyses as [|a rest IH]; intros fs H; simpl.
  - exact H.
  - apply IH, updateFlowState_streaks, H.
Qed.

(** C2. From a state whose two streak counters are zero, after any number
    [n] of the rounds of any sequence of analyses, at most one of
    [consecutiveCorrect] and [consecutiveIncorrect] is nonzero and neither is
    negative. *)
Theorem streak_counters_exclusive fs analyses (n : nat) :
  consecutiveCorrect fs = 0 -> consecutiveIncorrect fs = 0 ->
  let fs' := updateFlowStates fs (firstn n analyses) in
  (consecutiveCorrect fs' = 0 \/ consecutiveIncorrect fs' = 0) /\
  0 <= consecutiveCorrect fs' /\ 0 <= consecutiveIncorrect fs'.
Proof.
  intros Hc Hi. apply updateFlowStates_streaks.
  unfold streaks_ok. lia.
Qed.

Lemma streak_counters_exclusive_witness :
  consecutiveCorrect (freshState 5) = 0 /\ consecutiveIncorrect (freshState 5) = 0 /\
  consecutiveCorrect
    (updateFlowStates (freshState 5)
       (firstn 2 [analysisOf [] 8 5; analysisOf [] 2 5; analysisOf [] 2 5])) = 0.
Proof.
  split; [reflexivity|]. split; [reflexivity|].
  destruct (streak_counters_exclusive (freshState 5)
              [analysisOf [] 8 5; analysisOf [] 2 5; analysisOf [] 2 5] 2
              eq_refl eq_refl) as [[H | H] _].
  - exact H.
  - vm_compute in H. discriminate H.
Defined.

Lemma blend_5_near s : 4 <= s <= 6 -> blend 5 s = 5.
Proof.
  intros H. assert (s = 4 \/ s = 5 \/ s = 6) as [-> | [-> | ->]] by lia;
    vm_compute; reflexivity.
Qed.

(** A passing round below the third of a streak: the blend decides. *)
Lemma updateFlowState_pass fs a :
  7 <= overallScore a -> consecutiveCorrect fs + 1 < 3 ->
  currentDifficulty (updateFlowState fs a) =
    clamp (baseDifficulty fs - 3) (baseDifficulty fs + 3)
      (blend (currentDifficulty fs) (suggestedNextDifficulty a)) /\
  consecutiveCorrect (updateFlowState fs a) = consecutiveCorrect fs + 1 /\
  consecutiveIncorrect (updateFlowState fs a) = 0.
Proof.
  intros Hs Hc. unfold updateFlowState, clamp, maxDeviation.
  destruct (Z.leb_spec 7 (overallScore a)); [|lia]. simpl.
  destruct (Z.leb_spec 3 (consecutiveCorrect fs + 1)); [lia|]. simpl.
  auto.
Qed.

(** The passing round that completes a streak of three: one step up. *)
Lemma updateFlowState_pass_third fs a :
  7 <= overallScore a -> 3 <= consecutiveCorrect fs + 1 ->
  currentDifficulty (updateFlowState fs a) =
    clamp (baseDifficulty fs - 3) (baseDifficulty fs + 3)
      (Z.min 10 (currentDifficulty fs + 1)) /\
  consecutiveCorrect (updateFlowState fs a) = 0 /\
  consecutiveIncorrect (updateFlowState fs a) = 0.
Proof.
  intros Hs Hc. unfold updateFlowState, clamp, maxDeviation.
  destruct (Z.leb_spec 7 (overallScore a)); [|lia]. simpl.
  destruct (Z.leb_spec 3 (consecutiveCorrect fs + 1)); [|lia]. simpl.
  auto.
Qed.

(** C6, as amended. From a fresh state at base and current difficulty 5,
    three rounds with [overallScore >= 7] whose first two suggestions lie in
    [4,6] (so that the blend of those rounds stays at 5) end at difficulty 6
    with [consecutiveCorrect] back at 0. *)
Theorem three_passes_raise_difficulty fs a1 a2 a3 :
  fresh_at 5 fs ->
  7 <= overallScore a1 -> 7 <= overallScore a2 -> 7 <= overallScore a3 ->
  4 <= suggestedNextDifficulty a1 <= 6 ->
  4 <= suggestedNextDifficulty a2 <= 6 ->
  currentDifficulty (updateFlowStates fs [a1; a2; a3]) = 6 /\
  consecutiveCorrect (updateFlowStates fs [a1; a2; a3]) = 0.
Proof.
  intros (Hb & Hc & Hcc & Hci & _) H1 H2 H3 Hs1 Hs2.
  unfold updateFlowStates. simpl.
  set (s1 := updateFlowState fs a1).
  set (s2 := updateFlowState s1 a2).
  destruct (updateFlowState_pass fs a1 H1 ltac:(lia)) as (D1 & C1 & _).
  fold s1 in D1, C1.
  rewrite Hc, Hb, (blend_5_near _ Hs1) in D1. rewrite Hcc in C1.
  pose proof (proj1 (updateFlowState_frame fs a1)) as B1. fold s1 in B1.
  destruct (updateFlowState_pass s1 a2 H2 ltac:(lia)) as (D2 & C2 & _).
  fold s2 in D2, C2.
  rewrite D1, B1, Hb in D2. change (clamp (5 - 3) (5 + 3) 5) with 5 in D2.
  rewrite (blend_5_near _ Hs2) in D2. rewrite C1 in C2.
  pose proof (proj1 (updateFlowState_frame s1 a2)) as B2. fold s2 in B2.
  destruct (updateFlowState_pass_third s2 a3 H3 ltac:(lia)) as (D3 & C3 & _).
  rewrite D3, C3, D2, B2, B1, Hb. split; reflexivity.
Qed.

Lemma three_passes_raise_difficulty_witness :
  fresh_at 5 (freshState 5) /\
  currentDifficulty
    (updateFlowStates (freshState 5)
       [analysisOf [] 8 5; analysisOf [] 7 6; analysisOf [] 9 10]) = 6.
Proof.
  split; [repeat split|].
  refine (proj1 (three_passes_raise_difficulty (freshState 5)
            (analysisOf [] 8 5) (analysisOf [] 7 6) (analysisOf [] 9 10)
            _ _ _ _ _ _)).
  - repeat split.
  - simpl; lia.
  - simpl; lia.
  - simpl; lia.
  - simpl; lia.
  - simpl; lia.
Defined.

(** The claim as written fails: three passing rounds that each suggest
    difficulty 10 take the fresh state at 5 to difficulty 8, through 7 and 8,
    the third round being held by the clamp at base + 3. *)
Lemma three_passes_counterexample :
  fresh_at 5 (freshState 5) /\
  valid_analysis (analysisOf [] 9 10) /\ 7 <= overallScore (analysisOf [] 9 10) /\
  currentDifficulty
    (updateFlowStates (freshState 5)
       [analysisOf [] 9 10; analysisOf [] 9 10; analysisOf [] 9 10]) = 8 /\
  currentDifficulty
    (updateFlowStates (freshState 5)
       [analysisOf [] 9 10; analysisOf [] 9 10; analysisOf [] 9 10]) <> 6.
Proof.
  split; [repeat split|].
  split; [unfold valid_analysis, in_scale; simpl; lia|].
  split; [simpl; lia|].
  split; [vm_compute; reflexivity|vm_compute; discriminate].
Qed.

End DifficultyController.

(* ===================================================================== *)
(** * Keyword accumulation *)
(* ===================================================================== *)

Section Keywords.

Implicit Types (fs : AdaptiveFlowState) (a : ResponseAnalysis).

Lemma includes_In l k : Text.includes l k = true <-> In k l.
Proof.
  unfold Text.includes. rewrite existsb_exists. split.
  - intros (x & Hx & He). apply String.eqb_eq in He. now subst.
  - intros H. exists k. split; [exact H|apply String.eqb_refl].
Qed.

(** The merged list: the old keywords, then the incoming ones that the old
    list does not include. *)
Lemma updateFlowState_keywords fs a :
  mvpKeywords (updateFlowState fs a) =
  mvpKeywords fs ++
  List.filter (fun k => negb (Text.includes (mvpKeywords fs) k)) (a_mvpKeywords a).
Proof.
  unfold updateFlowState.
  repeat match goal with
         | |- context [if ?b then _ else _] => destruct b; simpl
         end; reflexivity.
Qed.

(** Existing keywords stay, in place. *)
Lemma keywords_append_only fs a :
  exists added, mvpKeywords (updateFlowState fs a) = mvpKeywords fs ++ added /\
    forall k, In k added -> In k (a_mvpKeywords a) /\ ~ In k (mvpKeywords fs).
Proof.
  eexists. split; [apply updateFlowState_keywords|].
  intros k Hk. apply filter_In in Hk as [Hin Hn]. split; [exact Hin|].
  intros Hold. apply includes_In in Hold. rewrite Hold in Hn. discriminate.
Qed.

(** An analysis whose keywords are all present changes nothing. *)
Lemma keywords_idempotent fs a :
  (forall k, In k (a_mvpKeywords a) -> In k (mvpKeywords fs)) ->
  mvpKeywords (updateFlowState fs a) = mvpKeywords fs.
Proof.
  intros Hsub. rewrite updateFlowState_keywords.
  assert (List.filter (fun k => negb (Text.includes (mvpKeywords fs) k))
            (a_mvpKeywords a) = []) as ->; [|apply app_nil_r].
  induction (a_mvpKeywords a) as [|k ks IH]; simpl; [reflexivity|].
  assert (Text.includes (mvpKeywords fs) k = true) as ->
    by (apply includes_In, Hsub; left; reflexivity).
  simpl. apply IH. intros k' Hk'. apply Hsub. right. exact Hk'.
Qed.

(** Without repetition on either side, the merged list has none. *)
Lemma keywords_NoDup fs a :
  List.NoDup (mvpKeywords fs) -> List.NoDup (a_mvpKeywords a) ->
  List.NoDup (mvpKeywords (updateFlowState fs a)).
Proof.
  intros Hold Hnew. rewrite updateFlowState_keywords.
  apply List.NoDup_app; [exact Hold| |].
  - apply List.NoDup_filter, Hnew.
  - intros k Hin Hf. apply filter_In in Hf as [_ Hf].
    apply includes_In in Hin. rewrite Hin in Hf. discriminate.
Qed.

(** C7, at the failing input. The stored list is empty, hence free of
    duplicates; the analysis names the same keyword twice.  The filter
    compares each incoming keyword with the stored list only, so both copies
    pass and the merged list holds the keyword twice. *)
Theorem keywords_duplicate_within_analysis :
  List.NoDup (mvpKeywords (freshState 5)) /\
  mvpKeywords
    (updateFlowState (freshState 5) (analysisOf ["React"; "React"]%string 5 5)) =
    ["React"; "React"]%string /\
  ~ List.NoDup (mvpKeywords
    (updateFlowState (freshState 5) (analysisOf ["React"; "React"]%string 5 5))).
Proof.
  split; [constructor|].
  split; [vm_compute; reflexivity|].
  rewrite updateFlowState_keywords. simpl.
  intros H. inversion H as [|k l Hnot _]. apply Hnot. left. reflexivity.
Qed.

End Keywords.

(* ===================================================================== *)
(** * Replies of the generation service *)
(* ===================================================================== *)

Section Replies.

Variable JSON_parse : string -> option Json.t.

Lemma asStrs_map_JStr (l : list string) : Json.asStrs (map JStr l) = Some l.
Proof.
  induction l as [|s l IH]; simpl; [reflexivity|]. now rewrite IH.
Qed.

(** The typed view reads back what the object literal wrote. *)
Lemma asAnalysis_encodeAnalysis a : asAnalysis (encodeAnalysis a) = Some a.
Proof.
  destruct a as [kws c ta co os sd r].
  unfold asAnalysis, encodeAnalysis, numProp. simpl.
  rewrite asStrs_map_JStr. reflexivity.
Qed.

(** C3, as amended. When the service replies with a text on which
    [JSON.parse] (after [trim]) throws, [analyzeUserResponse] returns, without
    throwing, the fallback analysis: the four scores 5, no keywords, the
    suggestion equal to the input [currentDifficulty] and the fixed reasoning.
    When the reply parses, the parsed value is returned as it is, whether or
    not it carries the members of an analysis. *)
Theorem analyzeUserResponse_fallback
    (userResponse currentQuestion role : string) (techStack : list string)
    (currentDifficulty : Z) (w : World) (text : string)
    (rest : list (option string)) :
  genReplies w = Some text :: rest ->
  (JSON_parse (Text.trim text) = None ->
     analyzeUserResponse JSON_parse userResponse currentQuestion role
       techStack currentDifficulty w =
       (Returns
          (JObj [ ("mvpKeywords"%string, JArr []);
                  ("confidence"%string, JNum 5);
                  ("technicalAccuracy"%string, JNum 5);
                  ("completeness"%string, JNum 5);
                  ("overallScore"%string, JNum 5);
                  ("suggestedNextDifficulty"%string, JNum currentDifficulty);
                  ("reasoning"%string,
                   JStr "Unable to analyze response properly") ]),
        set_genReplies rest w)) /\
  (forall v, JSON_parse (Text.trim text) = Some v ->
     analyzeUserResponse JSON_parse userResponse currentQuestion role
       techStack currentDifficulty w = (Returns v, set_genReplies rest w)).
Proof.
  intros Hg. unfold analyzeUserResponse, bind, generateText. rewrite Hg.
  split.
  - intros Hp. rewrite Hp. reflexivity.
  - intros v Hp. rewrite Hp. reflexivity.
Qed.

(** C8, as amended. When the service replies with a text, the function
    returns without throwing: the three fallback questions when
    [JSON.parse] throws on the trimmed reply, the parsed array itself, of
    whatever length, when the reply parses to an array, and the empty
    sequence when it parses to anything else. *)
Theorem generateInitialQuestions_cases
    (role : string) (techStack : list string) (difficulty : Z) (w : World)
    (text : string) (rest : list (option string)) :
  genReplies w = Some text :: rest ->
  (JSON_parse (Text.trim text) = None ->
     generateInitialQuestions JSON_parse role techStack difficulty w =
       (Returns (fallbackQuestions role techStack), set_genReplies rest w) /\
     exists q1 q2,
       fallbackQuestions role techStack =
         [JStr q1; JStr q2;
          JStr "Describe a time when you had to learn a new technology quickly."]) /\
  (forall questions, JSON_parse (Text.trim text) = Some (JArr questions) ->
     generateInitialQuestions JSON_parse role techStack difficulty w =
       (Returns questions, set_genReplies rest w)) /\
  (forall v, JSON_parse (Text.trim text) = Some v -> Json.isArray v = false ->
     generateInitialQuestions JSON_parse role techStack difficulty w =
       (Returns [], set_genReplies rest w)).
Proof.
  intros Hg. unfold generateInitialQuestions, bind, generateText. rewrite Hg.
  split; [|split].
  - intros Hp. rewrite Hp. split; [reflexivity|].
    unfold fallbackQuestions. eauto.
  - intros qs Hp. rewrite Hp. reflexivity.
  - intros v Hp Ha. rewrite Hp. destruct v; try reflexivity. discriminate Ha.
Qed.

End Replies.

Lemma analyzeUserResponse_fallback_witness :
  genReplies (worldOf ∅ [] [Some "I cannot answer that"%string]) =
    [Some "I cannot answer that"%string] /\
  Json.parseJson (Text.trim "I cannot answer that") = None /\
  analyzeUserResponse Json.parseJson "answer" "question" "Frontend Developer"
    ["React"%string] 7 (worldOf ∅ [] [Some "I cannot answer that"%string]) =
    (Returns (encodeAnalysis (fallbackAnalysis 7)), worldOf ∅ [] []).
Proof.
  split; [reflexivity|]. split; [vm_compute; reflexivity|].
  exact (proj1 (analyzeUserResponse_fallback Json.parseJson "answer" "question"
                  "Frontend Developer" ["React"%string] 7
                  (worldOf ∅ [] [Some "I cannot answer that"%string])
                  "I cannot answer that" [] eq_refl) eq_refl).
Defined.

(** The claim as written fails on missing fields: a reply that is the empty
    object parses, so it is returned as it is; it has none of the members of
    an analysis and is not the fallback. *)
Lemma analyzeUserResponse_missing_fields_counterexample :
  Json.parseJson (Text.trim "{}") = Some (JObj []) /\
  asAnalysis (JObj []) = None /\
  analyzeUserResponse Json.parseJson "answer" "question" "Frontend Developer"
    ["React"%string] 7 (worldOf ∅ [] [Some "{}"%string]) =
    (Returns (JObj []), worldOf ∅ [] []) /\
  JObj [] <> encodeAnalysis (fallbackAnalysis 7).
Proof.
  split; [vm_compute; reflexivity|]. split; [reflexivity|].
  split; [reflexivity|]. discriminate.
Qed.

Lemma generateInitialQuestions_cases_witness :
  genReplies (worldOf ∅ [] [Some "Here are your questions"%string]) =
    [Some "Here are your questions"%string] /\
  Json.parseJson (Text.trim "Here are your questions") = None /\
  generateInitialQuestions Json.parseJson "Frontend Developer" ["React"%string] 5
    (worldOf ∅ [] [Some "Here are your questions"%string]) =
    (Returns (fallbackQuestions "Frontend Developer" ["React"%string]),
     worldOf ∅ [] []).
Proof.
  split; [reflexivity|]. split; [vm_compute; reflexivity|].
  exact (proj1 (proj1 (generateInitialQuestions_cases Json.parseJson
                  "Frontend Developer" ["React"%string] 5
                  (worldOf ∅ [] [Some "Here are your questions"%string])
                  "Here are your questions" [] eq_refl) eq_refl)).
Defined.

(** The claim as written fails on the count: a reply that is the empty
    array parses to an array, which is returned as it is, with no question
    in it; a reply that is an object yields the empty sequence as well. *)
Lemma generateInitialQuestions_count_counterexample :
  Json.parseJson (Text.trim "[]") = Some (JArr []) /\
  generateInitialQuestions Json.parseJson "Frontend Developer" ["React"%string] 5
    (worldOf ∅ [] [Some ("[" ++ quoted "What is JSX?" ++ "]")%string]) =
    (Returns [JStr "What is JSX?"], worldOf ∅ [] []) /\
  generateInitialQuestions Json.parseJson "Frontend Developer" ["React"%string] 5
    (worldOf ∅ [] [Some "[]"%string]) = (Returns [], worldOf ∅ [] []) /\
  generateInitialQuestions Json.parseJson "Frontend Developer" ["React"%string] 5
    (worldOf ∅ [] [Some "{}"%string]) = (Returns [], worldOf ∅ [] []) /\
  length (@nil Json.t) <> 3%nat.
Proof.
  split; [vm_compute; reflexivity|]. split; [reflexivity|].
  split; [reflexivity|]. split; [reflexivity|]. discriminate.
Qed.

(* ===================================================================== *)
(** * The orchestrator and the persistence layer *)
(* ===================================================================== *)

Section Persistence.

Variable JSON_parse : string -> option Json.t.

Import NextQuestionRoute.

Implicit Types (w : World) (fs : AdaptiveFlowState).

(** C4, as amended. [initializeFlowState] does not look at the range of
    [baseDifficulty]: for every base difficulty, when the write to the store
    is accepted, it returns and persists the fresh state, with counters and
    [questionsAsked] at 0, the current difficulty equal to the base, no
    keywords, no history, and 10 questions when the total is omitted. *)
Theorem initializeFlowState_fresh
    (sessionId role : string) (techStack : list string) (baseDifficulty : Z)
    (totalQuestions : option Z) w :
  fst (next_fault w) = false ->
  exists fs w',
    initializeFlowState sessionId role techStack baseDifficulty totalQuestions w =
      (Returns fs, w') /\
    store w' = <[sessionId := fs]> (store w) /\
    fs = {| AdaptiveFlow.sessionId := sessionId;
            currentDifficulty := baseDifficulty;
            AdaptiveFlow.baseDifficulty := baseDifficulty;
            consecutiveCorrect := 0; consecutiveIncorrect := 0;
            AdaptiveFlow.totalQuestions :=
              match totalQuestions with Some n => n | None => 10 end;
            questionsAsked := 0; mvpKeywords := [];
            AdaptiveFlow.role := role; AdaptiveFlow.techStack := techStack;
            questionHistory := []; lastAnalysis := None |}.
Proof.
  intros Hw. unfold initializeFlowState, bind, db_set, ret.
  destruct (next_fault w) as [fault w1] eqn:Hn. simpl in Hw. subst fault.
  eexists _, _. split; [reflexivity|]. split.
  - simpl. unfold next_fault in Hn.
    destruct (dbFaults w); inversion Hn; reflexivity.
  - destruct totalQuestions; reflexivity.
Qed.

Lemma initializeFlowState_fresh_witness :
  fst (next_fault (worldOf ∅ [] [])) = false /\
  exists fs w',
    initializeFlowState "session-1" "Frontend Developer" ["React"%string] 4 None
      (worldOf ∅ [] []) = (Returns fs, w') /\
    totalQuestions fs = 10 /\ currentDifficulty fs = 4.
Proof.
  split; [reflexivity|].
  destruct (initializeFlowState_fresh "session-1" "Frontend Developer"
              ["React"%string] 4 None (worldOf ∅ [] []) eq_refl)
    as (fs & w' & Hrun & _ & Hfs).
  exists fs, w'. split; [exact Hrun|]. rewrite Hfs. split; reflexivity.
Defined.

(** The claim as written fails on the range check: at base difficulty 11
    the function returns a state at difficulty 11, and the endpoint answers
    with that state; neither raises a validation error. *)
Lemma initializeFlowState_range_counterexample :
  fst (initializeFlowState "session-1" "Frontend Developer" ["React"%string] 11
         None (worldOf ∅ [] [])) =
    Returns {| sessionId := "session-1"; currentDifficulty := 11;
               baseDifficulty := 11; consecutiveCorrect := 0;
               consecutiveIncorrect := 0; totalQuestions := 10;
               questionsAsked := 0; mvpKeywords := [];
               role := "Frontend Developer"; techStack := ["React"%string];
               questionHistory := []; lastAnalysis := None |} /\
  fst (InitializeFlowRoute.POST Json.parseJson
         {| InitializeFlowRoute.b_sessionId := Some "session-1"%string;
            InitializeFlowRoute.b_role := Some "Frontend Developer"%string;
            InitializeFlowRoute.b_techStack :=
              Some (InitializeFlowRoute.Many ["React"%string]);
            InitializeFlowRoute.b_baseDifficulty := Some 11;
            InitializeFlowRoute.b_totalQuestions := None |}
         (worldOf ∅ [] [Some "[]"%string])) =
    InitializeFlowRoute.Initialized
      {| sessionId := "session-1"; currentDifficulty := 11;
         baseDifficulty := 11; consecutiveCorrect := 0;
         consecutiveIncorrect := 0; totalQuestions := 10;
         questionsAsked := 0; mvpKeywords := [];
         role := "Frontend Developer"; techStack := ["React"%string];
         questionHistory := []; lastAnalysis := None |}
      [] "Adaptive flow initialized successfully" /\
  ~ 1 <= 11 <= 10.
Proof.
  split; [reflexivity|]. split; [reflexivity|]. lia.
Qed.

(** ** What the calls do to the world *)

(** A value that reads as a [ResponseAnalysis] enters the update as that
    analysis. *)
Lemma typed_returns v analysis :
  asAnalysis v = Some analysis -> typed v = ret analysis.
Proof.
  intros H. unfold typed.
  assert (hasKeywordArray v = true) as ->.
  { destruct v as [| | | | |fields]; try discriminate H.
    unfold asAnalysis in H. unfold hasKeywordArray.
    destruct (Json.getProp "mvpKeywords" fields) as [[| | | |items|]|];
      try discriminate H; reflexivity. }
  rewrite H. reflexivity.
Qed.

Lemma next_fault_frame w :
  store (snd (next_fault w)) = store w /\
  genReplies (snd (next_fault w)) = genReplies w /\
  isoNow (snd (next_fault w)) = isoNow w.
Proof. unfold next_fault. destruct (dbFaults w); simpl; auto. Qed.

Lemma getFlowState_frame sessionId w :
  store (snd (getFlowState sessionId w)) = store w /\
  genReplies (snd (getFlowState sessionId w)) = genReplies w.
Proof.
  unfold getFlowState, tryCatch, db_get, ret.
  pose proof (next_fault_frame w) as (Hs & Hg & _).
  destruct (next_fault w) as [[|] w1]; simpl in *; auto.
Qed.

Lemma analyzeUserResponse_frame u q r ts d w :
  store (snd (analyzeUserResponse JSON_parse u q r ts d w)) = store w /\
  dbFaults (snd (analyzeUserResponse JSON_parse u q r ts d w)) = dbFaults w.
Proof.
  unfold analyzeUserResponse, bind, generateText, ret.
  destruct (genReplies w) as [|[text|] rest]; simpl; auto.
  destruct (JSON_parse (Text.trim text)); simpl; auto.
Qed.

(** The first write rejects: nothing is stored. *)
Lemma generateNextQuestion_first_write_fails request w w1 analysisValue analysis rest :
  analyzeUserResponse JSON_parse (rq_userResponse request)
    (rq_currentQuestion request) (role (rq_flowState request))
    (techStack (rq_flowState request))
    (currentDifficulty (rq_flowState request)) w = (Returns analysisValue, w1) ->
  asAnalysis analysisValue = Some analysis ->
  dbFaults w1 = true :: rest ->
  generateNextQuestion JSON_parse request w =
    (Throws PersistenceError, set_dbFaults rest w1).
Proof.
  intros Ha Ht Hf. unfold generateNextQuestion.
  unfold bind at 1. rewrite Ha.
  unfold bind at 1. rewrite (typed_returns _ _ Ht). unfold ret at 1.
  unfold bind, db_set, next_fault. rewrite Hf. reflexivity.
Qed.

(** The second write rejects: the state of the first write stays stored. *)
Lemma generateNextQuestion_second_write_fails request w w1 analysisValue analysis
    rest text replies :
  analyzeUserResponse JSON_parse (rq_userResponse request)
    (rq_currentQuestion request) (role (rq_flowState request))
    (techStack (rq_flowState request))
    (currentDifficulty (rq_flowState request)) w = (Returns analysisValue, w1) ->
  asAnalysis analysisValue = Some analysis ->
  dbFaults w1 = false :: true :: rest ->
  genReplies w1 = Some text :: replies ->
  generateNextQuestion JSON_parse request w =
    (Throws PersistenceError,
     {| store := <[sessionId (rq_flowState request) :=
                    updateFlowState (rq_flowState request) analysis]> (store w1);
        dbFaults := rest; genReplies := replies; isoNow := isoNow w1 |}).
Proof.
  intros Ha Ht Hf Hg. unfold generateNextQuestion.
  unfold bind at 1. rewrite Ha.
  unfold bind at 1. rewrite (typed_returns _ _ Ht). unfold ret at 1.
  unfold bind, db_set, next_fault, generateText, toISOString_now.
  rewrite Hf. simpl. rewrite Hg. simpl. reflexivity.
Qed.

(** Both writes are accepted: the second replaces the document of the first. *)
Lemma generateNextQuestion_succeeds request w w1 analysisValue analysis
    rest text replies :
  analyzeUserResponse JSON_parse (rq_userResponse request)
    (rq_currentQuestion request) (role (rq_flowState request))
    (techStack (rq_flowState request))
    (currentDifficulty (rq_flowState request)) w = (Returns analysisValue, w1) ->
  asAnalysis analysisValue = Some analysis ->
  dbFaults w1 = false :: false :: rest ->
  genReplies w1 = Some text :: replies ->
  generateNextQuestion JSON_parse request w =
    (Returns (Text.unquote (Text.trim text)),
     {| store :=
          <[sessionId (rq_flowState request) :=
             push_history (updateFlowState (rq_flowState request) analysis)
               {| question := Text.unquote (Text.trim text);
                  timestamp := isoNow w1;
                  difficulty :=
                    currentDifficulty
                      (updateFlowState (rq_flowState request) analysis);
                  category := "adaptive" |}]> (store w1);
        dbFaults := rest; genReplies := replies; isoNow := isoNow w1 |}).
Proof.
  intros Ha Ht Hf Hg. unfold generateNextQuestion.
  unfold bind at 1. rewrite Ha.
  unfold bind at 1. rewrite (typed_returns _ _ Ht). unfold ret at 1.
  unfold bind, db_set, next_fault, generateText, toISOString_now, ret.
  rewrite Hf. simpl. rewrite Hg. simpl.
  rewrite insert_insert_eq. reflexivity.
Qed.

(** C5, as amended. Once the analysis is obtained as a well-formed
    [ResponseAnalysis], a rejected write makes [generateNextQuestion] throw
    the persistence error.  If the first write is the one rejected, the store
    is as it was.  If the first write is accepted and the second rejected,
    the store holds the state of the first write: the updated state, with
    [questionsAsked] one higher and the question history as before.  The
    second write replaces the whole document, so when both writes are
    accepted the store holds the final state alone, and issuing that write
    again leaves the store as it is: as a write it is idempotent.  A retry of
    the request from the stored state of the first write is not: it updates
    the state once more, and when it succeeds the stored state counts two
    questions more than before the first attempt and has one history entry
    more. *)
Theorem generateNextQuestion_write_failures request w w1 analysisValue analysis :
  analyzeUserResponse JSON_parse (rq_userResponse request)
    (rq_currentQuestion request) (role (rq_flowState request))
    (techStack (rq_flowState request))
    (currentDifficulty (rq_flowState request)) w = (Returns analysisValue, w1) ->
  asAnalysis analysisValue = Some analysis ->
  (forall rest, dbFaults w1 = true :: rest ->
     fst (generateNextQuestion JSON_parse request w) = Throws PersistenceError /\
     store (snd (generateNextQuestion JSON_parse request w)) = store w) /\
  (forall rest text replies,
     dbFaults w1 = false :: true :: rest ->
     genReplies w1 = Some text :: replies ->
     fst (generateNextQuestion JSON_parse request w) = Throws PersistenceError /\
     store (snd (generateNextQuestion JSON_parse request w)) =
       <[sessionId (rq_flowState request) :=
          updateFlowState (rq_flowState request) analysis]> (store w) /\
     questionsAsked (updateFlowState (rq_flowState request) analysis) =
       questionsAsked (rq_flowState request) + 1 /\
     questionHistory (updateFlowState (rq_flowState request) analysis) =
       questionHistory (rq_flowState request)) /\
  (forall rest text replies,
     dbFaults w1 = false :: false :: rest ->
     genReplies w1 = Some text :: replies ->
     exists final,
       store (snd (generateNextQuestion JSON_parse request w)) =
         <[sessionId (rq_flowState request) := final]> (store w) /\
       <[sessionId (rq_flowState request) := final]>
         (store (snd (generateNextQuestion JSON_parse request w))) =
         store (snd (generateNextQuestion JSON_parse request w)) /\
       questionsAsked final = questionsAsked (rq_flowState request) + 1 /\
       length (questionHistory final) =
         S (length (questionHistory (rq_flowState request)))) /\
  (forall w2 w3 v2 analysis2 rest text replies,
     analyzeUserResponse JSON_parse
       (rq_userResponse (retryOf request analysis))
       (rq_currentQuestion (retryOf request analysis))
       (role (rq_flowState (retryOf request analysis)))
       (techStack (rq_flowState (retryOf request analysis)))
       (currentDifficulty (rq_flowState (retryOf request analysis))) w2 =
       (Returns v2, w3) ->
     asAnalysis v2 = Some analysis2 ->
     dbFaults w3 = false :: false :: rest ->
     genReplies w3 = Some text :: replies ->
     exists final2,
       store (snd (generateNextQuestion JSON_parse (retryOf request analysis) w2))
         !! sessionId (rq_flowState request) = Some final2 /\
       questionsAsked final2 = questionsAsked (rq_flowState request) + 2 /\
       length (questionHistory final2) =
         S (length (questionHistory (rq_flowState request)))).
Proof.
  intros Ha Ht.
  pose proof (analyzeUserResponse_frame (rq_userResponse request)
                (rq_currentQuestion request) (role (rq_flowState request))
                (techStack (rq_flowState request))
                (currentDifficulty (rq_flowState request)) w) as [Hs _].
  rewrite Ha in Hs. simpl in Hs.
  pose proof (updateFlowState_frame (rq_flowState request) analysis)
    as (_ & _ & Hq & Hh & Hid).
  split; [|split; [|split]].
  - intros rest Hf.
    rewrite (generateNextQuestion_first_write_fails _ _ _ _ _ _ Ha Ht Hf).
    simpl. auto.
  - intros rest text replies Hf Hg.
    rewrite (generateNextQuestion_second_write_fails _ _ _ _ _ _ _ _ Ha Ht Hf Hg).
    simpl. rewrite Hs. auto.
  - intros rest text replies Hf Hg.
    rewrite (generateNextQuestion_succeeds _ _ _ _ _ _ _ _ Ha Ht Hf Hg).
    simpl. rewrite Hs. eexists. split; [reflexivity|].
    split; [apply insert_insert_eq|].
    cbn [push_history questionsAsked questionHistory].
    rewrite Hq, Hh, length_app. simpl. split; lia.
  - intros w2 w3 v2 analysis2 rest text replies Ha2 Ht2 Hf Hg.
    rewrite (generateNextQuestion_succeeds (retryOf request analysis)
               w2 w3 v2 analysis2 rest text replies Ha2 Ht2 Hf Hg).
    cbn [snd store retryOf rq_flowState]. rewrite Hid.
    eexists. split; [apply lookup_insert_eq|].
    pose proof (updateFlowState_frame
                  (updateFlowState (rq_flowState request) analysis) analysis2)
      as (_ & _ & Hq2 & Hh2 & _).
    cbn [push_history questionsAsked questionHistory].
    rewrite Hq2, Hq, Hh2, Hh, length_app. simpl. split; lia.
Qed.

(** C10. With the three parameters present and a stored state whose
    [questionsAsked] has reached [totalQuestions], the endpoint answers that
    the interview is completed, with the summary of the stored state; the
    world afterwards is the world after the read, with the store and the
    replies of the generation service untouched. *)
Theorem next_question_completed body sessionId w w1 fs :
  b_sessionId body = Some sessionId ->
  Text.truthy_str (b_sessionId body) = true ->
  Text.truthy_str (b_userResponse body) = true ->
  Text.truthy_str (b_currentQuestion body) = true ->
  getFlowState sessionId w = (Returns (Some fs), w1) ->
  totalQuestions fs <= questionsAsked fs ->
  NextQuestionRoute.POST JSON_parse body w =
    (Completed "Interview completed" (generateInterviewSummary fs), w1) /\
  store w1 = store w /\ genReplies w1 = genReplies w.
Proof.
  intros Hsid Ht1 Ht2 Ht3 Hget Hdone.
  split.
  - unfold NextQuestionRoute.POST, NextQuestionRoute.handle.
    rewrite Hsid in *.
    destruct sessionId as [|c1 r1]; [discriminate Ht1|].
    destruct (b_userResponse body) as [[|c2 r2]|]; try discriminate Ht2.
    destruct (b_currentQuestion body) as [[|c3 r3]|]; try discriminate Ht3.
    unfold bind at 1. rewrite Hget.
    unfold shouldContinueInterview.
    destruct (Z.ltb_spec (questionsAsked fs) (totalQuestions fs)); [lia|].
    reflexivity.
  - pose proof (getFlowState_frame sessionId w) as H. rewrite Hget in H.
    exact H.
Qed.

End Persistence.

Lemma generateNextQuestion_write_failures_witness :
  analyzeUserResponse Json.parseJson (rq_userResponse (requestOf (freshState 5)))
    (rq_currentQuestion (requestOf (freshState 5))) (role (freshState 5))
    (techStack (freshState 5)) (currentDifficulty (freshState 5))
    (worldOf {[ "session-1"%string := freshState 5 ]} [true]
       [Some "no analysis"%string]) =
    (Returns (encodeAnalysis (fallbackAnalysis 5)),
     worldOf {[ "session-1"%string := freshState 5 ]} [true] []) /\
  asAnalysis (encodeAnalysis (fallbackAnalysis 5)) = Some (fallbackAnalysis 5) /\
  fst (generateNextQuestion Json.parseJson (requestOf (freshState 5))
         (worldOf {[ "session-1"%string := freshState 5 ]} [true]
            [Some "no analysis"%string])) = Throws PersistenceError.
Proof.
  split; [reflexivity|]. split; [reflexivity|].
  exact (proj1 (proj1 (generateNextQuestion_write_failures Json.parseJson
           (requestOf (freshState 5))
           (worldOf {[ "session-1"%string := freshState 5 ]} [true]
              [Some "no analysis"%string])
           (worldOf {[ "session-1"%string := freshState 5 ]} [true] [])
           (encodeAnalysis (fallbackAnalysis 5)) (fallbackAnalysis 5)
           eq_refl eq_refl) [] eq_refl)).
Defined.

(** The claim as written fails between the two writes: the first write is
    accepted, the second is rejected, and the stored document is no longer
    the previous one; it counts one question asked and has no history entry
    for it. *)
Lemma generateNextQuestion_partial_write_counterexample :
  store (worldOf {[ "session-1"%string := freshState 5 ]} [false; true]
           [Some "no analysis"%string; Some "What is a closure?"%string])
    !! "session-1"%string = Some (freshState 5) /\
  fst (generateNextQuestion Json.parseJson (requestOf (freshState 5))
         (worldOf {[ "session-1"%string := freshState 5 ]} [false; true]
            [Some "no analysis"%string; Some "What is a closure?"%string])) =
    Throws PersistenceError /\
  store (snd (generateNextQuestion Json.parseJson (requestOf (freshState 5))
         (worldOf {[ "session-1"%string := freshState 5 ]} [false; true]
            [Some "no analysis"%string; Some "What is a closure?"%string])))
    !! "session-1"%string =
    Some (updateFlowState (freshState 5) (fallbackAnalysis 5)) /\
  questionsAsked (updateFlowState (freshState 5) (fallbackAnalysis 5)) = 1 /\
  questionHistory (updateFlowState (freshState 5) (fallbackAnalysis 5)) = [] /\
  updateFlowState (freshState 5) (fallbackAnalysis 5) <> freshState 5.
Proof.
  split; [apply lookup_singleton_eq|].
  rewrite (generateNextQuestion_second_write_fails Json.parseJson
             (requestOf (freshState 5))
             (worldOf {[ "session-1"%string := freshState 5 ]} [false; true]
                [Some "no analysis"%string; Some "What is a closure?"%string])
             (worldOf {[ "session-1"%string := freshState 5 ]} [false; true]
                [Some "What is a closure?"%string])
             (encodeAnalysis (fallbackAnalysis 5)) (fallbackAnalysis 5)
             [] "What is a closure?" [] eq_refl eq_refl eq_refl eq_refl).
  split; [reflexivity|].
  split; [apply lookup_insert_eq|].
  split; [reflexivity|]. split; [reflexivity|].
  intros H. apply (f_equal questionsAsked) in H. vm_compute in H. discriminate H.
Qed.

Lemma next_question_completed_witness :
  getFlowState "session-1"
    (worldOf {[ "session-1"%string := finishedState ]} [] [Some "unused"%string]) =
    (Returns (Some finishedState),
     worldOf {[ "session-1"%string := finishedState ]} [] [Some "unused"%string]) /\
  totalQuestions finishedState <= questionsAsked finishedState /\
  NextQuestionRoute.POST Json.parseJson
    finalAnswerBody
    (worldOf {[ "session-1"%string := finishedState ]} [] [Some "unused"%string]) =
    (NextQuestionRoute.Completed "Interview completed"
       (generateInterviewSummary finishedState),
     worldOf {[ "session-1"%string := finishedState ]} [] [Some "unused"%string]).
Proof.
  assert (Hget : getFlowState "session-1"
            (worldOf {[ "session-1"%string := finishedState ]} [] [Some "unused"%string]) =
          (Returns (Some finishedState),
           worldOf {[ "session-1"%string := finishedState ]} [] [Some "unused"%string])).
  { unfold getFlowState, tryCatch, db_get, next_fault. simpl.
    rewrite lookup_singleton_eq. reflexivity. }
  split; [exact Hget|].
  split; [simpl; lia|].
  refine (proj1 (next_question_completed Json.parseJson finalAnswerBody "session-1" _ _
                   finishedState eq_refl eq_refl eq_refl eq_refl Hget _)).
  simpl; lia.
Defined.

(* ===================================================================== *)
(** * The interruption-aware message handler *)
(* ===================================================================== *)

Section MessageHandler.

Import Interruption.

Implicit Types (st : HandlerState) (m : Message).

Lemma recordInterruption_times h start timestamp :
  interruptionTimes (recordInterruption h start timestamp) =
    interruptionTimes h ++ [timestamp - start] /\
  totalInterruptions (metrics (recordInterruption h start timestamp)) =
    totalInterruptions (metrics h) + 1 /\
  lastInterruptionTime (metrics (recordInterruption h start timestamp)) =
    Some timestamp.
Proof. unfold recordInterruption. simpl. auto. Qed.

(** A speech start of the assistant sets the start time and records
    nothing. *)
Lemma onMessage_speech_start st t0 m :
  assistant_speech_start m ->
  handler (onMessage st t0 m) = handler st /\
  aiSpeechStartTime (onMessage st t0 m) = Some t0.
Proof.
  intros [Ht Hr]. destruct m as [ty ro tt sta tr]. simpl in Ht, Hr. subst.
  unfold onMessage. simpl. split; reflexivity.
Qed.

(** A partial transcript of the user while the start time is set and not
    zero records one interruption. *)
Lemma onMessage_partial_transcript st t1 m start :
  user_partial_transcript m ->
  aiSpeechStartTime st = Some start -> start <> 0 ->
  handler (onMessage st t1 m) = recordInterruption (handler st) start t1.
Proof.
  intros (Ht & Hr & Hp & _) Hs Hz.
  destruct m as [ty ro tt sta tr]. simpl in Ht, Hr, Hp. subst.
  unfold onMessage, started. simpl. rewrite Hs.
  destruct (Z.eqb_spec start 0) as [E|_]; [contradiction|].
  reflexivity.
Qed.

Lemma started_unset st : aiSpeechStartTime st = None -> started st = None.
Proof. unfold started. now intros ->. Qed.

Lemma started_call c st : started (call c st) = started st.
Proof. reflexivity. Qed.

Lemma started_cleared st : started (set_start None st) = None.
Proof. reflexivity. Qed.

(** While the start time is unset, no message makes the handler record. *)
Lemma onMessage_unset_records_nothing st timestamp m :
  aiSpeechStartTime st = None ->
  handler (onMessage st timestamp m) = handler st.
Proof.
  intros Hs. apply started_unset in Hs. unfold onMessage.
  destruct (String.eqb_spec (type m) "speech-start") as [E1|E1].
  - (* a speech start is none of the other events *)
    rewrite E1. simpl.
    destruct (propIs "assistant" (role m)); simpl; reflexivity.
  - rewrite andb_false_l.
    destruct (String.eqb (type m) "speech-end" && propIs "assistant" (role m));
      destruct (String.eqb (type m) "transcript" && propIs "user" (role m));
      destruct (propIs "partial" (transcriptType m));
      rewrite ?started_call, ?started_cleared, ?Hs;
      destruct (String.eqb (type m) "user-interrupted");
      rewrite ?started_call, ?started_cleared, ?Hs;
      destruct (String.eqb (type m) "voice-input");
      destruct (String.eqb (type m) "speech-update" && propIs "user" (role m)
                && propIs "started" (status m));
      rewrite ?started_call, ?started_cleared, ?Hs;
      reflexivity.
Qed.

(** The test on the start time is a test of truthiness: a speech start read
    at clock value zero counts as unset, and the transcript that follows
    records nothing. *)
Lemma onMessage_zero_start_not_recorded st dt m1 m2 :
  assistant_speech_start m1 ->
  user_partial_transcript m2 ->
  handler (onMessage (onMessage st 0 m1) dt m2) = handler st.
Proof.
  intros [Ht1 Hr1] (Ht2 & Hr2 & Hp2 & _).
  destruct m1 as [ty1 ro1 tt1 sta1 tr1], m2 as [ty2 ro2 tt2 sta2 tr2].
  simpl in *. subst. reflexivity.
Qed.

(** C9. Starting from any state of the handler, a speech start of the
    assistant at a time [t0] other than zero followed [dt] milliseconds later
    by a partial user transcript with a text appends exactly one delay, [dt],
    to the recorded interruptions and raises the count by one.  And while
    [aiSpeechStartTime] is unset, each of the four interruption-class events
    leaves the recorder as it was; the handler is a total function, so it
    does not throw. *)
Theorem interruption_recorded_once st t0 dt m1 m2 :
  t0 <> 0 ->
  assistant_speech_start m1 ->
  user_partial_transcript m2 ->
  (interruptionTimes (handler (onMessage (onMessage st t0 m1) (t0 + dt) m2)) =
     interruptionTimes (handler st) ++ [dt] /\
   totalInterruptions
     (metrics (handler (onMessage (onMessage st t0 m1) (t0 + dt) m2))) =
     totalInterruptions (metrics (handler st)) + 1) /\
  (forall st' timestamp m,
     aiSpeechStartTime st' = None -> interruption_class m = true ->
     handler (onMessage st' timestamp m) = handler st').
Proof.
  intros Hz H1 H2. split.
  - destruct (onMessage_speech_start st t0 m1 H1) as [Hh Hs].
    rewrite (onMessage_partial_transcript _ (t0 + dt) m2 t0 H2 Hs Hz).
    destruct (recordInterruption_times (handler (onMessage st t0 m1)) t0 (t0 + dt))
      as (Ht & Hn & _).
    rewrite Ht, Hn, Hh. replace (t0 + dt - t0) with dt by lia. auto.
  - intros st' timestamp m Hs _.
    apply onMessage_unset_records_nothing, Hs.
Qed.

End MessageHandler.

Lemma interruption_recorded_once_witness :
  1700000000000 <> 0 /\
  assistant_speech_start speechStartMessage /\
  user_partial_transcript (partialTranscriptMessage "wait") /\
  Interruption.interruptionTimes
    (Interruption.handler
       (Interruption.onMessage
          (Interruption.onMessage newHandlerState 1700000000000 speechStartMessage)
          (1700000000000 + 120) (partialTranscriptMessage "wait"))) = [120] /\
  Interruption.handler
    (Interruption.onMessage newHandlerState 1700000000000 voiceInputMessage) =
    Interruption.handler newHandlerState.
Proof.
  assert (H0 : 1700000000000 <> 0) by lia.
  assert (H1 : assistant_speech_start speechStartMessage) by (split; reflexivity).
  assert (H2 : user_partial_transcript (partialTranscriptMessage "wait"))
    by (repeat split).
  split; [exact H0|]. split; [exact H1|]. split; [exact H2|].
  destruct (interruption_recorded_once newHandlerState 1700000000000 120
              speechStartMessage (partialTranscriptMessage "wait") H0 H1 H2)
    as [[Ht _] Hn].
  split; [exact Ht|].
  apply Hn; reflexivity.
Defined.

(* ===================================================================== *)
(** * Further properties of the difficulty controller *)
(* ===================================================================== *)

Section Rounds.

Implicit Types (fs : AdaptiveFlowState) (a : ResponseAnalysis).

Lemma updateFlowStates_snoc fs analyses a :
  updateFlowStates fs (analyses ++ [a]) =
  updateFlowState (updateFlowStates fs analyses) a.
Proof. unfold updateFlowStates. rewrite fold_left_app. reflexivity. Qed.

(** What a sequence of rounds leaves alone, and how it counts. *)
Lemma updateFlowStates_frame analyses fs :
  baseDifficulty (updateFlowStates fs analyses) = baseDifficulty fs /\
  totalQuestions (updateFlowStates fs analyses) = totalQuestions fs /\
  questionsAsked (updateFlowStates fs analyses) =
    questionsAsked fs + Z.of_nat (length analyses) /\
  questionHistory (updateFlowStates fs analyses) = questionHistory fs /\
  sessionId (updateFlowStates fs analyses) = sessionId fs.
Proof.
  unfold updateFlowStates. revert fs.
  induction analyses as [|a rest IH]; intros fs.
  - simpl. repeat split; lia.
  - cbn [fold_left length].
    destruct (IH (updateFlowState fs a)) as (Hb & Ht & Hq & Hh & Hs).
    destruct (updateFlowState_frame fs a) as (Hb' & Ht' & Hq' & Hh' & Hs').
    rewrite Hb, Ht, Hq, Hh, Hs, Hb', Ht', Hq', Hh', Hs'.
    repeat split; lia.
Qed.

Lemma blend_same c : in_scale c -> blend c c = c.
Proof.
  intros Hc. apply Z.eqb_eq.
  apply (forall_scale2 (fun c _ => blend c c =? c)) with (s := c);
    [vm_compute; reflexivity|exact Hc|exact Hc].
Qed.

Lemma valid_state_round fs a :
  valid_state fs -> valid_analysis a -> valid_state (updateFlowState fs a).
Proof.
  intros (Hb & Hc & Hdev) (_ & _ & _ & _ & Hs).
  pose proof (blend_in_scale _ _ Hc Hs) as Hbl.
  pose proof (proj1 (updateFlowState_frame fs a)) as Hbase.
  unfold valid_state. rewrite Hbase. unfold in_scale in *.
  unfold updateFlowState, maxDeviation.
  repeat match goal with
         | |- context [if ?b then _ else _] => destruct b; simpl
         end; lia.
Qed.

(** X1. Validity is kept over whole interviews: from a valid state (base
    and current difficulty in 1 to 10, the current one within three of the
    base), every sequence of rounds whose analyses have their numbers in 1 to
    10 leads to a valid state again, with the same base difficulty. *)
Theorem valid_state_preserved analyses fs :
  valid_state fs -> Forall valid_analysis analyses ->
  valid_state (updateFlowStates fs analyses) /\
  baseDifficulty (updateFlowStates fs analyses) = baseDifficulty fs.
Proof.
  intros Hv Hall. split; [|apply updateFlowStates_frame].
  unfold updateFlowStates. revert fs Hv.
  induction Hall as [|a rest Ha Hrest IH]; intros fs Hv; simpl.
  - exact Hv.
  - apply IH, valid_state_round; assumption.
Qed.

Lemma valid_state_preserved_witness :
  valid_state (freshState 8) /\
  valid_state
    (updateFlowStates (freshState 8)
       [analysisOf [] 9 10; analysisOf [] 9 10; analysisOf [] 9 10;
        analysisOf [] 2 1; analysisOf [] 2 1]).
Proof.
  assert (Hv : valid_state (freshState 8))
    by (unfold valid_state, in_scale; simpl; lia).
  split; [exact Hv|].
  refine (proj1 (valid_state_preserved
                   [analysisOf [] 9 10; analysisOf [] 9 10; analysisOf [] 9 10;
                    analysisOf [] 2 1; analysisOf [] 2 1] (freshState 8) Hv _)).
  repeat constructor; unfold in_scale; simpl; lia.
Defined.

Lemma updateFlowState_streaks_small fs a :
  streaks_small fs -> streaks_small (updateFlowState fs a).
Proof.
  unfold streaks_small. intros H. unfold updateFlowState.
  repeat match goal with
         | |- context [if ?b then _ else _] => destruct b eqn:?; simpl
         end; lia.
Qed.

(** X2. From a state with a correct streak of at most two and an incorrect
    streak of at most one, such as a fresh state, every sequence of rounds
    leads to such a state again: the counters never reach the thresholds 3
    and 2 between rounds. *)
Theorem streaks_stay_below_thresholds fs analyses :
  streaks_small fs ->
  0 <= consecutiveCorrect (updateFlowStates fs analyses) <= 2 /\
  0 <= consecutiveIncorrect (updateFlowStates fs analyses) <= 1.
Proof.
  unfold updateFlowStates. revert fs.
  induction analyses as [|a rest IH]; intros fs H; simpl.
  - exact H.
  - apply IH, updateFlowState_streaks_small, H.
Qed.

Lemma streaks_stay_below_thresholds_witness :
  streaks_small (freshState 5) /\
  0 <= consecutiveCorrect
         (updateFlowStates (freshState 5)
            [analysisOf [] 8 5; analysisOf [] 9 5; analysisOf [] 6 5]) <= 2.
Proof.
  assert (H : streaks_small (freshState 5))
    by (unfold streaks_small; simpl; lia).
  split; [exact H|].
  exact (proj1 (streaks_stay_below_thresholds (freshState 5)
                  [analysisOf [] 8 5; analysisOf [] 9 5; analysisOf [] 6 5] H)).
Defined.

(** X3. A sequence of n rounds raises [questionsAsked] by exactly n and
    leaves the total, the session and the question history as they were; so
    the interview continues after the sequence exactly when the earlier
    count plus n is below the total. *)
Theorem rounds_are_counted fs analyses :
  questionsAsked (updateFlowStates fs analyses) =
    questionsAsked fs + Z.of_nat (length analyses) /\
  totalQuestions (updateFlowStates fs analyses) = totalQuestions fs /\
  sessionId (updateFlowStates fs analyses) = sessionId fs /\
  questionHistory (updateFlowStates fs analyses) = questionHistory fs /\
  shouldContinueInterview (updateFlowStates fs analyses) =
    (questionsAsked fs + Z.of_nat (length analyses) <? totalQuestions fs).
Proof.
  destruct (updateFlowStates_frame analyses fs) as (_ & Ht & Hq & Hh & Hs).
  unfold shouldContinueInterview. rewrite Hq, Ht. auto.
Qed.

(** X4. On the scale the blend lies between the current difficulty and the
    suggestion, and a suggestion equal to the current difficulty gives it
    back. *)
Theorem blend_between c s :
  in_scale c -> in_scale s ->
  Z.min c s <= blend c s <= Z.max c s /\ blend c c = c.
Proof.
  intros Hc Hs.
  assert (H : (Z.min c s <=? blend c s) && (blend c s <=? Z.max c s)
              && (blend c c =? c) = true).
  { revert c s Hc Hs.
    apply (forall_scale2 (fun c s =>
      (Z.min c s <=? blend c s) && (blend c s <=? Z.max c s)
      && (blend c c =? c))).
    vm_compute. reflexivity. }
  apply andb_true_iff in H as [H H3]. apply andb_true_iff in H as [H1 H2].
  apply Z.leb_le in H1, H2. apply Z.eqb_eq in H3. auto.
Qed.

Lemma blend_between_witness :
  in_scale 3 /\ in_scale 9 /\ Z.min 3 9 <= blend 3 9 <= Z.max 3 9.
Proof.
  assert (H3 : in_scale 3) by (unfold in_scale; lia).
  assert (H9 : in_scale 9) by (unfold in_scale; lia).
  split; [exact H3|]. split; [exact H9|].
  exact (proj1 (blend_between 3 9 H3 H9)).
Defined.

(** X5. On the scale the blend computed in double precision is the exact
    value of 0.7 c + 0.3 s rounded half up, except at (6,1) and (7,2): there
    the exact value ends in one half, the doubles fall just below it, and the
    blend is one less. *)
Theorem blend_rounding_on_scale c s :
  in_scale c -> in_scale s ->
  (blend_misses_half c s = false -> blend c s = exact_blend c s) /\
  (blend_misses_half c s = true -> blend c s = exact_blend c s - 1).
Proof.
  intros Hc Hs. rewrite (blend_on_scale c s Hc Hs).
  split; intros ->; reflexivity.
Qed.

Lemma blend_rounding_on_scale_witness :
  in_scale 6 /\ in_scale 1 /\ blend_misses_half 6 1 = true /\
  blend 6 1 = exact_blend 6 1 - 1.
Proof.
  assert (H6 : in_scale 6) by (unfold in_scale; lia).
  assert (H1 : in_scale 1) by (unfold in_scale; lia).
  split; [exact H6|]. split; [exact H1|]. split; [reflexivity|].
  exact (proj2 (blend_rounding_on_scale 6 1 H6 H1) eq_refl).
Defined.

(** X6. A round driven by the fallback analysis is neutral: on a valid
    state whose streaks are below the thresholds it leaves the difficulty,
    both counters and the keywords as they were and only counts the
    question. *)
Theorem fallback_round_is_neutral fs :
  valid_state fs -> streaks_small fs ->
  let fs' := updateFlowState fs (fallbackAnalysis (currentDifficulty fs)) in
  currentDifficulty fs' = currentDifficulty fs /\
  consecutiveCorrect fs' = consecutiveCorrect fs /\
  consecutiveIncorrect fs' = consecutiveIncorrect fs /\
  mvpKeywords fs' = mvpKeywords fs /\
  questionsAsked fs' = questionsAsked fs + 1.
Proof.
  intros (Hb & Hc & Hd) (Hcc & Hci).
  pose proof (blend_same _ Hc) as Hbl.
  unfold in_scale in *. simpl.
  unfold updateFlowState, maxDeviation. simpl.
  destruct (Z.leb_spec 3 (consecutiveCorrect fs)); [lia|].
  destruct (Z.leb_spec 2 (consecutiveIncorrect fs)); [lia|].
  simpl. rewrite Hbl, app_nil_r. repeat split; lia.
Qed.

Lemma fallback_round_is_neutral_witness :
  valid_state finishedState /\ streaks_small finishedState /\
  currentDifficulty
    (updateFlowState finishedState
       (fallbackAnalysis (currentDifficulty finishedState))) = 6.
Proof.
  assert (Hv : valid_state finishedState)
    by (unfold valid_state, in_scale; simpl; lia).
  assert (Hs : streaks_small finishedState)
    by (unfold streaks_small; simpl; lia).
  split; [exact Hv|]. split; [exact Hs|].
  exact (proj1 (fallback_round_is_neutral finishedState Hv Hs)).
Defined.

(** X7. Two failing rounds in a row, from a valid state without an
    incorrect streak, the first analysis suggesting a difficulty in 1 to 10:
    the first round is decided by the blend of the current difficulty and
    that suggestion, held within three of the base; the second round lowers
    the difficulty so reached by one, not below 1 and not below the base
    minus three, whatever else the second analysis holds; both counters end
    at 0. *)
Theorem two_fails_lower_difficulty fs a1 a2 :
  valid_state fs -> consecutiveIncorrect fs = 0 ->
  in_scale (suggestedNextDifficulty a1) ->
  overallScore a1 <= 4 -> overallScore a2 <= 4 ->
  let s1 := updateFlowState fs a1 in
  let s2 := updateFlowState s1 a2 in
  consecutiveIncorrect s1 = 1 /\
  currentDifficulty s1 =
    clamp (baseDifficulty fs - 3) (baseDifficulty fs + 3)
      (blend (currentDifficulty fs) (suggestedNextDifficulty a1)) /\
  in_scale (currentDifficulty s1) /\
  currentDifficulty s2 =
    Z.max (Z.max 1 (baseDifficulty fs - 3)) (currentDifficulty s1 - 1) /\
  consecutiveIncorrect s2 = 0 /\ consecutiveCorrect s2 = 0.
Proof.
  intros (Hb & Hc & Hdev) Hi Hsg H1 H2 s1 s2.
  pose proof (blend_in_scale _ _ Hc Hsg) as Hbl.
  pose proof (proj1 (updateFlowState_frame fs a1)) as Hb1. fold s1 in Hb1.
  assert (Hs1 : consecutiveIncorrect s1 = 1 /\ consecutiveCorrect s1 = 0 /\
                currentDifficulty s1 =
                  clamp (baseDifficulty fs - 3) (baseDifficulty fs + 3)
                    (blend (currentDifficulty fs) (suggestedNextDifficulty a1))).
  { subst s1. unfold updateFlowState, clamp, maxDeviation.
    destruct (Z.leb_spec 7 (overallScore a1)); [lia|].
    destruct (Z.leb_spec (overallScore a1) 4); [|lia].
    rewrite Hi. simpl. auto. }
  destruct Hs1 as (Hi1 & Hc1 & Hd1).
  assert (Hsc : in_scale (currentDifficulty s1)).
  { rewrite Hd1. unfold clamp, in_scale in *. lia. }
  assert (Hn : baseDifficulty fs - 3 <= currentDifficulty s1
               <= baseDifficulty fs + 3).
  { rewrite Hd1. unfold clamp, in_scale in *. lia. }
  split; [exact Hi1|]. split; [exact Hd1|]. split; [exact Hsc|].
  unfold in_scale in Hb. subst s2. unfold updateFlowState, maxDeviation.
  destruct (Z.leb_spec 7 (overallScore a2)); [lia|].
  destruct (Z.leb_spec (overallScore a2) 4); [|lia].
  rewrite Hi1. simpl. rewrite Hb1. repeat split; lia.
Qed.

Lemma two_fails_lower_difficulty_witness :
  valid_state (freshState 5) /\
  consecutiveIncorrect (freshState 5) = 0 /\
  currentDifficulty
    (updateFlowState (updateFlowState (freshState 5) (analysisOf [] 3 5))
       (analysisOf [] 2 5)) =
  Z.max (Z.max 1 (5 - 3))
    (currentDifficulty (updateFlowState (freshState 5) (analysisOf [] 3 5)) - 1).
Proof.
  assert (Hv : valid_state (freshState 5))
    by (unfold valid_state, in_scale; simpl; lia).
  split; [exact Hv|]. split; [reflexivity|].
  refine (proj1 (proj2 (proj2 (proj2 (two_fails_lower_difficulty (freshState 5)
            (analysisOf [] 3 5) (analysisOf [] 2 5) Hv eq_refl _ _ _))))).
  - unfold in_scale; simpl; lia.
  - simpl; lia.
  - simpl; lia.
Defined.

End Rounds.

(* ===================================================================== *)
(** * Further properties of the keyword list *)
(* ===================================================================== *)

Section KeywordRounds.

Implicit Types (fs : AdaptiveFlowState) (a : ResponseAnalysis).

(** After a round every keyword of the state and of the analysis is in the
    list. *)
Lemma updateFlowState_keywords_In fs a k :
  In k (mvpKeywords fs) \/ In k (a_mvpKeywords a) ->
  In k (mvpKeywords (updateFlowState fs a)).
Proof.
  rewrite updateFlowState_keywords, in_app_iff, filter_In.
  intros [H | H]; [left; exact H|].
  destruct (Text.includes (mvpKeywords fs) k) eqn:E.
  - left. apply includes_In, E.
  - right. split; [exact H|reflexivity].
Qed.

(** X8. Over any sequence of rounds the keyword list only grows at its
    end, and no keyword is lost: the list of the start is a prefix of the
    final list, and every keyword of every analysis of the sequence is in
    the final list. *)
Theorem keywords_accumulate analyses fs :
  (exists added,
     mvpKeywords (updateFlowStates fs analyses) = mvpKeywords fs ++ added) /\
  (forall a k, In a analyses -> In k (a_mvpKeywords a) ->
     In k (mvpKeywords (updateFlowStates fs analyses))).
Proof.
  unfold updateFlowStates. revert fs.
  induction analyses as [|a rest IH]; intros fs; simpl.
  - split; [exists []; symmetry; apply app_nil_r|]. intros a k [].
  - destruct (IH (updateFlowState fs a)) as [[added Hadd] Hin]. split.
    + destruct (keywords_append_only fs a) as (added0 & H0 & _).
      exists (added0 ++ added). rewrite Hadd, H0, app_assoc. reflexivity.
    + intros a' k [-> | Ha'] Hk.
      * rewrite Hadd. apply in_or_app. left.
        apply updateFlowState_keywords_In. right. exact Hk.
      * apply (Hin a' k Ha' Hk).
Qed.

(** X9. If the stored keywords have no repetition and no analysis of the
    sequence repeats a keyword within itself, the list has no repetition
    after the sequence. *)
Theorem keywords_stay_distinct analyses fs :
  List.NoDup (mvpKeywords fs) ->
  Forall (fun a => List.NoDup (a_mvpKeywords a)) analyses ->
  List.NoDup (mvpKeywords (updateFlowStates fs analyses)).
Proof.
  unfold updateFlowStates. revert fs.
  induction analyses as [|a rest IH]; intros fs Hfs Hall; simpl.
  - exact Hfs.
  - inversion Hall as [|a' rest' Ha Hrest]; subst.
    apply IH; [apply keywords_NoDup; assumption|exact Hrest].
Qed.

Lemma keywords_stay_distinct_witness :
  List.NoDup (mvpKeywords (freshState 5)) /\
  List.NoDup
    (mvpKeywords
       (updateFlowStates (freshState 5)
          [analysisOf ["React"; "hooks"]%string 6 5;
           analysisOf ["hooks"; "state"]%string 6 5])).
Proof.
  assert (H0 : List.NoDup (mvpKeywords (freshState 5))) by constructor.
  split; [exact H0|].
  apply (keywords_stay_distinct
           [analysisOf ["React"; "hooks"]%string 6 5;
            analysisOf ["hooks"; "state"]%string 6 5] (freshState 5) H0).
  repeat constructor; simpl; intuition discriminate.
Defined.

(** X10. Merging is idempotent: an analysis applied a second time, right
    after the first, adds no keyword, whatever its keywords are. *)
Theorem keywords_second_merge_adds_nothing fs a :
  mvpKeywords (updateFlowState (updateFlowState fs a) a) =
  mvpKeywords (updateFlowState fs a).
Proof.
  apply keywords_idempotent. intros k Hk.
  apply updateFlowState_keywords_In. right. exact Hk.
Qed.

End KeywordRounds.

(* ===================================================================== *)
(** * Further properties of the orchestrator *)
(* ===================================================================== *)

Section Orchestrator.

Variable JSON_parse : string -> option Json.t.

Implicit Types (w : World) (fs : AdaptiveFlowState).

Lemma getFlowState_outcome sessionId w :
  getFlowState sessionId w =
    (Returns (if fst (next_fault w) then None else store w !! sessionId),
     snd (next_fault w)).
Proof.
  unfold getFlowState, tryCatch, db_get, ret.
  pose proof (next_fault_frame w) as (Hs & _ & _).
  destruct (next_fault w) as [[|] w1]; simpl in *; [reflexivity|].
  rewrite Hs. reflexivity.
Qed.

(** X11. [getFlowState] never throws and never changes the store: a read
    that the store rejects is answered with null, like a missing document,
    and an accepted read is answered with the stored document. *)
Theorem getFlowState_never_throws sessionId w :
  exists r,
    fst (getFlowState sessionId w) = Returns r /\
    store (snd (getFlowState sessionId w)) = store w /\
    (fst (next_fault w) = true -> r = None) /\
    (fst (next_fault w) = false -> r = store w !! sessionId).
Proof.
  rewrite getFlowState_outcome. simpl.
  pose proof (next_fault_frame w) as (Hs & _ & _).
  eexists. split; [reflexivity|]. split; [exact Hs|].
  split; intros ->; reflexivity.
Qed.

(** X12. When the analysis is obtained as a well-formed
    [ResponseAnalysis], both writes are accepted and the service supplies the
    next question, [generateNextQuestion] returns that text trimmed and
    without one leading and one trailing quotation mark, and the stored
    document is exactly the updated state with one more history entry, which
    carries the returned question, the time of the clock, the new
    difficulty and the category adaptive; every other document of the store
    is as before. *)
Theorem generateNextQuestion_success request w w1 v analysis rest text replies :
  analyzeUserResponse JSON_parse (rq_userResponse request)
    (rq_currentQuestion request) (role (rq_flowState request))
    (techStack (rq_flowState request))
    (currentDifficulty (rq_flowState request)) w = (Returns v, w1) ->
  asAnalysis v = Some analysis ->
  dbFaults w1 = false :: false :: rest ->
  genReplies w1 = Some text :: replies ->
  fst (generateNextQuestion JSON_parse request w) =
    Returns (Text.unquote (Text.trim text)) /\
  store (snd (generateNextQuestion JSON_parse request w)) =
    <[sessionId (rq_flowState request) :=
       push_history (updateFlowState (rq_flowState request) analysis)
         {| question := Text.unquote (Text.trim text);
            timestamp := isoNow w;
            difficulty :=
              currentDifficulty (updateFlowState (rq_flowState request) analysis);
            category := "adaptive" |}]> (store w).
Proof.
  intros Ha Ht Hf Hg.
  pose proof (analyzeUserResponse_frame JSON_parse (rq_userResponse request)
                (rq_currentQuestion request) (role (rq_flowState request))
                (techStack (rq_flowState request))
                (currentDifficulty (rq_flowState request)) w) as [Hs _].
  rewrite Ha in Hs. simpl in Hs.
  assert (Hn : isoNow w1 = isoNow w).
  { revert Ha. unfold analyzeUserResponse, bind, generateText, ret.
    destruct (genReplies w) as [|[t|] r]; try discriminate.
    destruct (JSON_parse (Text.trim t)); intros H; inversion H; reflexivity. }
  rewrite (generateNextQuestion_succeeds JSON_parse _ _ _ _ _ _ _ _ Ha Ht Hf Hg).
  simpl. rewrite Hs, Hn. auto.
Qed.

(** X13. When the generation service rejects the request for the analysis,
    [generateNextQuestion] throws the error of the service before any call
    to the store: the store and the script of store faults are as before. *)
Theorem generateNextQuestion_analysis_unavailable request w :
  (genReplies w = [] \/ exists rest, genReplies w = None :: rest) ->
  fst (generateNextQuestion JSON_parse request w) = Throws GenerationError /\
  store (snd (generateNextQuestion JSON_parse request w)) = store w /\
  dbFaults (snd (generateNextQuestion JSON_parse request w)) = dbFaults w.
Proof.
  intros H.
  assert (E : generateNextQuestion JSON_parse request w =
              (Throws GenerationError, set_genReplies (tl (genReplies w)) w)).
  { unfold generateNextQuestion.
    unfold bind at 1. unfold analyzeUserResponse.
    unfold bind at 1. unfold generateText.
    destruct H as [H | [rest H]]; rewrite H; [|reflexivity].
    simpl. destruct w; simpl in H; subst; reflexivity. }
  rewrite E. simpl. repeat split; reflexivity.
Qed.


(** X14. When the first write is accepted and the service then rejects the
    request for the next question, [generateNextQuestion] throws the error of
    the service and the store keeps the updated state of the first write,
    which counts the question and has no history entry for it. *)
Theorem generateNextQuestion_question_unavailable request w w1 v analysis :
  analyzeUserResponse JSON_parse (rq_userResponse request)
    (rq_currentQuestion request) (role (rq_flowState request))
    (techStack (rq_flowState request))
    (currentDifficulty (rq_flowState request)) w = (Returns v, w1) ->
  asAnalysis v = Some analysis ->
  fst (next_fault w1) = false ->
  (genReplies w1 = [] \/ exists rest, genReplies w1 = None :: rest) ->
  fst (generateNextQuestion JSON_parse request w) = Throws GenerationError /\
  store (snd (generateNextQuestion JSON_parse request w)) =
    <[sessionId (rq_flowState request) :=
       updateFlowState (rq_flowState request) analysis]> (store w).
Proof.
  intros Ha Ht Hf Hg.
  pose proof (analyzeUserResponse_frame JSON_parse (rq_userResponse request)
                (rq_currentQuestion request) (role (rq_flowState request))
                (techStack (rq_flowState request))
                (currentDifficulty (rq_flowState request)) w) as [Hs _].
  rewrite Ha in Hs. simpl in Hs.
  pose proof (next_fault_frame w1) as (Hs1 & Hg1 & _).
  assert (E : generateNextQuestion JSON_parse request w =
              (Throws GenerationError,
               set_genReplies (tl (genReplies w1))
                 (set_store
                    (<[sessionId (rq_flowState request) :=
                        updateFlowState (rq_flowState request) analysis]>
                       (store (snd (next_fault w1))))
                    (snd (next_fault w1))))).
  { unfold generateNextQuestion.
    unfold bind at 1. rewrite Ha.
    unfold bind at 1. rewrite (typed_returns _ _ Ht). unfold ret at 1.
    unfold bind at 1, db_set.
    destruct (next_fault w1) as [fault w2]. simpl in Hf, Hs1, Hg1 |- *.
    subst fault.
    unfold bind at 1, generateText. simpl. rewrite Hg1.
    destruct Hg as [Hg | [rest Hg]]; rewrite Hg; [|reflexivity].
    simpl. f_equal. unfold set_genReplies, set_store. simpl.
    rewrite Hg1, Hg. reflexivity. }
  rewrite E. simpl. rewrite Hs1, Hs. auto.
Qed.

(** X15. When the reply of the service parses to a value that has no array
    under [mvpKeywords], the update raises a type error before any call to
    the store: nothing is written. *)
Theorem generateNextQuestion_without_keyword_array request w w1 v :
  analyzeUserResponse JSON_parse (rq_userResponse request)
    (rq_currentQuestion request) (role (rq_flowState request))
    (techStack (rq_flowState request))
    (currentDifficulty (rq_flowState request)) w = (Returns v, w1) ->
  (forall fields items,
     v = JObj fields -> Json.getProp "mvpKeywords" fields <> Some (JArr items)) ->
  generateNextQuestion JSON_parse request w = (Throws TypeError, w1) /\
  store w1 = store w /\ dbFaults w1 = dbFaults w.
Proof.
  intros Ha Hv.
  pose proof (analyzeUserResponse_frame JSON_parse (rq_userResponse request)
                (rq_currentQuestion request) (role (rq_flowState request))
                (techStack (rq_flowState request))
                (currentDifficulty (rq_flowState request)) w) as [Hs Hd].
  rewrite Ha in Hs, Hd. simpl in Hs, Hd.
  split; [|auto].
  assert (Hn : hasKeywordArray v = false).
  { destruct v as [| | | | |fields]; try reflexivity.
    unfold hasKeywordArray.
    destruct (Json.getProp "mvpKeywords" fields) as [[| | | |items|]|] eqn:E;
      try reflexivity.
    exfalso. exact (Hv fields items eq_refl E). }
  unfold generateNextQuestion.
  unfold bind at 1. rewrite Ha.
  unfold bind at 1, typed. rewrite Hn. reflexivity.
Qed.


End Orchestrator.

Lemma generateNextQuestion_success_witness :
  fst (generateNextQuestion Json.parseJson (requestOf (freshState 5))
         (worldOf {[ "session-1"%string := freshState 5 ]} [false; false]
            [Some "no analysis"%string; Some " 'What is a closure?' "%string])) =
    Returns "What is a closure?"%string.
Proof.
  exact (proj1 (generateNextQuestion_success Json.parseJson
              (requestOf (freshState 5))
              (worldOf {[ "session-1"%string := freshState 5 ]} [false; false]
                 [Some "no analysis"%string; Some " 'What is a closure?' "%string])
              (worldOf {[ "session-1"%string := freshState 5 ]} [false; false]
                 [Some " 'What is a closure?' "%string])
              (encodeAnalysis (fallbackAnalysis 5)) (fallbackAnalysis 5)
              [] " 'What is a closure?' " [] eq_refl eq_refl eq_refl eq_refl)).
Defined.
Lemma generateNextQuestion_analysis_unavailable_witness :
  fst (generateNextQuestion Json.parseJson (requestOf (freshState 5))
         (worldOf {[ "session-1"%string := freshState 5 ]} [] [None])) =
    Throws GenerationError.
Proof.
  exact (proj1 (generateNextQuestion_analysis_unavailable Json.parseJson
                  (requestOf (freshState 5))
                  (worldOf {[ "session-1"%string := freshState 5 ]} [] [None])
                  (or_intror (ex_intro _ [] eq_refl)))).
Defined.
Lemma generateNextQuestion_question_unavailable_witness :
  fst (generateNextQuestion Json.parseJson (requestOf (freshState 5))
         (worldOf {[ "session-1"%string := freshState 5 ]} []
            [Some "no analysis"%string])) = Throws GenerationError /\
  store (snd (generateNextQuestion Json.parseJson (requestOf (freshState 5))
         (worldOf {[ "session-1"%string := freshState 5 ]} []
            [Some "no analysis"%string]))) !! "session-1"%string =
    Some (updateFlowState (freshState 5) (fallbackAnalysis 5)).
Proof.
  destruct (generateNextQuestion_question_unavailable Json.parseJson
              (requestOf (freshState 5))
              (worldOf {[ "session-1"%string := freshState 5 ]} []
                 [Some "no analysis"%string])
              (worldOf {[ "session-1"%string := freshState 5 ]} [] [])
              (encodeAnalysis (fallbackAnalysis 5)) (fallbackAnalysis 5)
              eq_refl eq_refl eq_refl (or_introl eq_refl)) as [Hr Hst].
  split; [exact Hr|]. rewrite Hst. apply lookup_insert_eq.
Defined.
Lemma generateNextQuestion_without_keyword_array_witness :
  generateNextQuestion Json.parseJson (requestOf (freshState 5))
    (worldOf {[ "session-1"%string := freshState 5 ]} [] [Some "{}"%string]) =
    (Throws TypeError, worldOf {[ "session-1"%string := freshState 5 ]} [] []).
Proof.
  refine (proj1 (generateNextQuestion_without_keyword_array Json.parseJson
            (requestOf (freshState 5))
            (worldOf {[ "session-1"%string := freshState 5 ]} [] [Some "{}"%string])
            (worldOf {[ "session-1"%string := freshState 5 ]} [] [])
            (JObj []) eq_refl _)).
  intros fields items H. inversion H. subst. simpl. discriminate.
Defined.

(* ===================================================================== *)
(** * Further properties of the endpoints *)
(* ===================================================================== *)

Section Endpoints.

Variable JSON_parse : string -> option Json.t.

Implicit Types (w : World) (fs : AdaptiveFlowState).

(** X16. A request to the next-question endpoint in which the session, the
    answer or the current question is absent or empty is answered with
    status 400, and the world is left exactly as it was: no read, no write,
    no call to the generation service. *)
Theorem next_question_missing_parameter (body : NextQuestionRoute.Body) w :
  Text.truthy_str (NextQuestionRoute.b_sessionId body) = false \/
  Text.truthy_str (NextQuestionRoute.b_userResponse body) = false \/
  Text.truthy_str (NextQuestionRoute.b_currentQuestion body) = false ->
  NextQuestionRoute.POST JSON_parse body w =
    (NextQuestionRoute.Failure 400 "Missing required parameters", w).
Proof.
  intros H. unfold NextQuestionRoute.POST, NextQuestionRoute.handle.
  destruct (NextQuestionRoute.b_sessionId body) as [[|c1 r1]|];
    destruct (NextQuestionRoute.b_userResponse body) as [[|c2 r2]|];
    destruct (NextQuestionRoute.b_currentQuestion body) as [[|c3 r3]|];
    simpl in H; try reflexivity.
  destruct H as [H | [H | H]]; discriminate H.
Qed.

(** X17. With the three parameters present, a session that has no stored
    document and a read that the store rejects are answered alike, with
    status 404; nothing is written and the generation service is not
    called. *)
Theorem next_question_not_found (body : NextQuestionRoute.Body) sessionId w :
  NextQuestionRoute.b_sessionId body = Some sessionId ->
  Text.truthy_str (NextQuestionRoute.b_sessionId body) = true ->
  Text.truthy_str (NextQuestionRoute.b_userResponse body) = true ->
  Text.truthy_str (NextQuestionRoute.b_currentQuestion body) = true ->
  fst (next_fault w) = true \/ store w !! sessionId = None ->
  fst (NextQuestionRoute.POST JSON_parse body w) =
    NextQuestionRoute.Failure 404 "Flow state not found. Please initialize first." /\
  store (snd (NextQuestionRoute.POST JSON_parse body w)) = store w /\
  genReplies (snd (NextQuestionRoute.POST JSON_parse body w)) = genReplies w.
Proof.
  intros Hsid Ht1 Ht2 Ht3 Hmiss.
  pose proof (next_fault_frame w) as (Hs & Hg & _).
  assert (Hr : (if fst (next_fault w) then None else store w !! sessionId) = None).
  { destruct Hmiss as [-> | H]; [reflexivity|].
    destruct (fst (next_fault w)); [reflexivity|exact H]. }
  destruct (NextQuestionRoute.POST JSON_parse body w) as [reply w'] eqn:E.
  revert E.
  unfold NextQuestionRoute.POST, NextQuestionRoute.handle.
  rewrite Hsid in *.
  destruct sessionId as [|c1 r1]; [discriminate Ht1|].
  destruct (NextQuestionRoute.b_userResponse body) as [[|c2 r2]|];
    try discriminate Ht2.
  destruct (NextQuestionRoute.b_currentQuestion body) as [[|c3 r3]|];
    try discriminate Ht3.
  unfold bind at 1. rewrite getFlowState_outcome, Hr.
  intros E. inversion E; subst; clear E. simpl. auto.
Qed.

(** X19. A request to the initialize-flow endpoint without a session, a
    role, a stack or a base difficulty (an empty text counting as absent) is
    answered with status 400 and leaves the world exactly as it was. *)
Theorem initialize_missing_parameter (body : InitializeFlowRoute.Body) w :
  Text.truthy_str (InitializeFlowRoute.b_sessionId body) = false \/
  Text.truthy_str (InitializeFlowRoute.b_role body) = false \/
  InitializeFlowRoute.truthy_techStack (InitializeFlowRoute.b_techStack body) = false \/
  InitializeFlowRoute.b_baseDifficulty body = None ->
  InitializeFlowRoute.POST JSON_parse body w =
    (InitializeFlowRoute.Failure 400 "Missing required parameters", w).
Proof.
  intros H. unfold InitializeFlowRoute.POST, InitializeFlowRoute.handle.
  destruct (InitializeFlowRoute.b_sessionId body) as [[|c1 r1]|];
    destruct (InitializeFlowRoute.b_role body) as [[|c2 r2]|];
    destruct (InitializeFlowRoute.b_techStack body) as [[[|c3 r3]|l]|];
    destruct (InitializeFlowRoute.b_baseDifficulty body) as [d|];
    simpl in H |- *; try reflexivity;
    destruct H as [H | [H | [H | H]]]; discriminate H.
Qed.

(** X20. With its parameters present, an accepted write and a reply of the
    service, the initialize-flow endpoint answers with the fresh state and
    stores it under the session: the difficulty is the base difficulty of
    the request, whatever number it is, zero included; a stack given as one
    text becomes a one-element list; and a total that is omitted or zero
    becomes 10. *)
Theorem initialize_success (body : InitializeFlowRoute.Body)
    sessionId role stack baseDifficulty w text rest :
  InitializeFlowRoute.b_sessionId body = Some sessionId ->
  InitializeFlowRoute.b_role body = Some role ->
  InitializeFlowRoute.b_techStack body = Some stack ->
  InitializeFlowRoute.b_baseDifficulty body = Some baseDifficulty ->
  Text.truthy_str (Some sessionId) = true ->
  Text.truthy_str (Some role) = true ->
  InitializeFlowRoute.truthy_techStack (Some stack) = true ->
  fst (next_fault w) = false ->
  genReplies w = Some text :: rest ->
  exists questions,
    fst (InitializeFlowRoute.POST JSON_parse body w) =
      InitializeFlowRoute.Initialized
        {| AdaptiveFlow.sessionId := sessionId;
           currentDifficulty := baseDifficulty;
           AdaptiveFlow.baseDifficulty := baseDifficulty;
           consecutiveCorrect := 0; consecutiveIncorrect := 0;
           totalQuestions :=
             match InitializeFlowRoute.b_totalQuestions body with
             | Some n => if n =? 0 then 10 else n
             | None => 10
             end;
           questionsAsked := 0; mvpKeywords := [];
           AdaptiveFlow.role := role;
           techStack :=
             match stack with
             | InitializeFlowRoute.One s => [s]
             | InitializeFlowRoute.Many l => l
             end;
           questionHistory := []; lastAnalysis := None |}
        questions "Adaptive flow initialized successfully" /\
    store (snd (InitializeFlowRoute.POST JSON_parse body w)) !! sessionId =
      Some {| AdaptiveFlow.sessionId := sessionId;
              currentDifficulty := baseDifficulty;
              AdaptiveFlow.baseDifficulty := baseDifficulty;
              consecutiveCorrect := 0; consecutiveIncorrect := 0;
              totalQuestions :=
                match InitializeFlowRoute.b_totalQuestions body with
                | Some n => if n =? 0 then 10 else n
                | None => 10
                end;
              questionsAsked := 0; mvpKeywords := [];
              AdaptiveFlow.role := role;
              techStack :=
                match stack with
                | InitializeFlowRoute.One s => [s]
                | InitializeFlowRoute.Many l => l
                end;
              questionHistory := []; lastAnalysis := None |}.
Proof.
  intros Hsid Hrole Hstack Hbase Ht1 Ht2 Ht3 Hw Hg.
  pose proof (next_fault_frame w) as (Hs1 & Hg1 & _).
  destruct (InitializeFlowRoute.POST JSON_parse body w) as [reply w'] eqn:E.
  revert E.
  unfold InitializeFlowRoute.POST, InitializeFlowRoute.handle.
  rewrite Hsid, Hrole, Hstack, Hbase.
  destruct sessionId as [|c1 r1]; [discriminate Ht1|].
  destruct role as [|c2 r2]; [discriminate Ht2|].
  rewrite Ht3.
  unfold bind at 1. unfold initializeFlowState.
  unfold bind at 1. unfold db_set.
  destruct (next_fault w) as [fault w1]. simpl in Hw, Hs1, Hg1. subst fault.
  unfold ret at 1. unfold bind at 1.
  unfold generateInitialQuestions. unfold bind at 1. unfold generateText.
  simpl genReplies. rewrite Hg1, Hg.
  unfold InitializeFlowRoute.orTen, InitializeFlowRoute.asArray. simpl default.
  destruct (JSON_parse (Text.trim text)) as [[| | | |questions|]|];
    intros E; inversion E; subst; clear E;
    (eexists; split; [reflexivity|]; simpl; apply lookup_insert_eq).
Qed.

(** X21. If the store rejects the write of the fresh state, the
    initialize-flow endpoint answers with status 500 without calling the
    generation service, and nothing is stored.  If the write is accepted and
    the service then rejects the request for the questions, the answer is
    status 500 as well, but the fresh state stays stored under the
    session. *)
Theorem initialize_failures (body : InitializeFlowRoute.Body)
    sessionId role stack baseDifficulty w :
  InitializeFlowRoute.b_sessionId body = Some sessionId ->
  InitializeFlowRoute.b_role body = Some role ->
  InitializeFlowRoute.b_techStack body = Some stack ->
  InitializeFlowRoute.b_baseDifficulty body = Some baseDifficulty ->
  Text.truthy_str (Some sessionId) = true ->
  Text.truthy_str (Some role) = true ->
  InitializeFlowRoute.truthy_techStack (Some stack) = true ->
  (fst (next_fault w) = true ->
     fst (InitializeFlowRoute.POST JSON_parse body w) =
       InitializeFlowRoute.Failure 500 "Failed to initialize adaptive flow" /\
     store (snd (InitializeFlowRoute.POST JSON_parse body w)) = store w /\
     genReplies (snd (InitializeFlowRoute.POST JSON_parse body w)) = genReplies w) /\
  (fst (next_fault w) = false ->
   (genReplies w = [] \/ exists rest, genReplies w = None :: rest) ->
     fst (InitializeFlowRoute.POST JSON_parse body w) =
       InitializeFlowRoute.Failure 500 "Failed to initialize adaptive flow" /\
     exists fs,
       store (snd (InitializeFlowRoute.POST JSON_parse body w)) !! sessionId =
         Some fs /\
       currentDifficulty fs = baseDifficulty /\ questionsAsked fs = 0).
Proof.
  intros Hsid Hrole Hstack Hbase Ht1 Ht2 Ht3.
  pose proof (next_fault_frame w) as (Hs1 & Hg1 & _).
  destruct (InitializeFlowRoute.POST JSON_parse body w) as [reply w'] eqn:E.
  revert E.
  unfold InitializeFlowRoute.POST, InitializeFlowRoute.handle.
  rewrite Hsid, Hrole, Hstack, Hbase.
  destruct sessionId as [|c1 r1]; [discriminate Ht1|].
  destruct role as [|c2 r2]; [discriminate Ht2|].
  rewrite Ht3.
  unfold bind at 1. unfold initializeFlowState.
  unfold bind at 1. unfold db_set.
  destruct (next_fault w) as [fault w1]. simpl in Hs1, Hg1 |- *.
  destruct fault.
  - intros E. inversion E; subst; clear E.
    split; [auto | intros H; discriminate H].
  - unfold ret at 1. unfold bind at 1.
    unfold generateInitialQuestions. unfold bind at 1. unfold generateText.
    simpl genReplies. rewrite Hg1.
    intros E. split; [intros H; discriminate H|]. intros _ Hg. revert E.
    destruct Hg as [Hg | [rest Hg]]; rewrite Hg; intros E;
      inversion E; subst; clear E;
      (split; [reflexivity|]; eexists; split; [apply lookup_insert_eq|];
       split; reflexivity).
Qed.

End Endpoints.

Section HealthyStore.

Variable JSON_parse : string -> option Json.t.

Implicit Types (w : World) (fs : AdaptiveFlowState).

Lemma next_fault_healthy w : dbFaults w = [] -> next_fault w = (false, w).
Proof. unfold next_fault. now intros ->. Qed.

Lemma getFlowState_healthy sessionId w :
  dbFaults w = [] ->
  getFlowState sessionId w = (Returns (store w !! sessionId), w).
Proof.
  intros H. rewrite getFlowState_outcome, (next_fault_healthy w H). reflexivity.
Qed.

(** The pipeline on a store that accepts every call. *)
Lemma generateNextQuestion_healthy request w w1 v analysis text replies :
  analyzeUserResponse JSON_parse (rq_userResponse request)
    (rq_currentQuestion request) (role (rq_flowState request))
    (techStack (rq_flowState request))
    (currentDifficulty (rq_flowState request)) w = (Returns v, w1) ->
  asAnalysis v = Some analysis ->
  dbFaults w1 = [] ->
  genReplies w1 = Some text :: replies ->
  generateNextQuestion JSON_parse request w =
    (Returns (Text.unquote (Text.trim text)),
     {| store :=
          <[sessionId (rq_flowState request) :=
             push_history (updateFlowState (rq_flowState request) analysis)
               {| question := Text.unquote (Text.trim text);
                  timestamp := isoNow w1;
                  difficulty :=
                    currentDifficulty
                      (updateFlowState (rq_flowState request) analysis);
                  category := "adaptive" |}]> (store w1);
        dbFaults := []; genReplies := replies; isoNow := isoNow w1 |}).
Proof.
  intros Ha Ht Hf Hg. unfold generateNextQuestion.
  unfold bind at 1. rewrite Ha.
  unfold bind at 1. rewrite (typed_returns _ _ Ht). unfold ret at 1.
  unfold bind, db_set, next_fault, generateText, toISOString_now, ret.
  rewrite Hf. simpl. rewrite Hg. simpl. rewrite Hf. simpl.
  rewrite insert_insert_eq. unfold set_store, set_genReplies. simpl.
  rewrite Hf. reflexivity.
Qed.

(** X18. On a store that accepts every call, for a present request and a
    stored document that is filed under its own session id and has questions
    left, the next-question endpoint answers with the cleaned question of
    the service, with the state it has stored, which is the updated state
    with the history entry of that question, and with the number of
    questions that remain, one less than before; so the answer to the last
    admissible question reports that none remains. *)
Theorem next_question_continue (body : NextQuestionRoute.Body)
    sessionId userResponse currentQuestion w w1 fs v analysis text replies :
  NextQuestionRoute.b_sessionId body = Some sessionId ->
  NextQuestionRoute.b_userResponse body = Some userResponse ->
  NextQuestionRoute.b_currentQuestion body = Some currentQuestion ->
  Text.truthy_str (Some sessionId) = true ->
  Text.truthy_str (Some userResponse) = true ->
  Text.truthy_str (Some currentQuestion) = true ->
  dbFaults w = [] ->
  store w !! sessionId = Some fs ->
  AdaptiveFlow.sessionId fs = sessionId ->
  questionsAsked fs < totalQuestions fs ->
  analyzeUserResponse JSON_parse userResponse currentQuestion (role fs)
    (techStack fs) (currentDifficulty fs) w = (Returns v, w1) ->
  asAnalysis v = Some analysis ->
  genReplies w1 = Some text :: replies ->
  let final :=
    push_history (updateFlowState fs analysis)
      {| question := Text.unquote (Text.trim text);
         timestamp := isoNow w;
         difficulty := currentDifficulty (updateFlowState fs analysis);
         category := "adaptive" |} in
  fst (NextQuestionRoute.POST JSON_parse body w) =
    NextQuestionRoute.Continue (Text.unquote (Text.trim text)) (Some final)
      (totalQuestions fs - (questionsAsked fs + 1)) /\
  store (snd (NextQuestionRoute.POST JSON_parse body w)) =
    <[sessionId := final]> (store w).
Proof.
  intros Hsid Hur Hcq Ht1 Ht2 Ht3 Hf Hst Hkey Hlt Ha Hty Hg final.
  pose proof (analyzeUserResponse_frame JSON_parse userResponse currentQuestion
                (role fs) (techStack fs) (currentDifficulty fs) w) as [Hs Hd].
  rewrite Ha in Hs, Hd. simpl in Hs, Hd.
  assert (Hn : isoNow w1 = isoNow w).
  { revert Ha. unfold analyzeUserResponse, bind, generateText, ret.
    destruct (genReplies w) as [|[t|] r]; try discriminate.
    destruct (JSON_parse (Text.trim t)); intros H; inversion H; reflexivity. }
  assert (Hf1 : dbFaults w1 = []) by (rewrite Hd; exact Hf).
  destruct (NextQuestionRoute.POST JSON_parse body w) as [reply w'] eqn:E.
  revert E.
  unfold NextQuestionRoute.POST, NextQuestionRoute.handle.
  rewrite Hsid, Hur, Hcq.
  destruct sessionId as [|c1 r1]; [discriminate Ht1|].
  destruct userResponse as [|c2 r2]; [discriminate Ht2|].
  destruct currentQuestion as [|c3 r3]; [discriminate Ht3|].
  unfold bind at 1. rewrite (getFlowState_healthy _ w Hf), Hst.
  unfold shouldContinueInterview.
  destruct (Z.ltb_spec (questionsAsked fs) (totalQuestions fs)); [|lia].
  cbn [negb]. unfold bind at 1.
  rewrite (generateNextQuestion_healthy
             {| rq_sessionId := String c1 r1; rq_userResponse := String c2 r2;
                rq_currentQuestion := String c3 r3; rq_flowState := fs |}
             w w1 v analysis text replies Ha Hty Hf1 Hg).
  cbn [rq_flowState]. unfold bind at 1.
  rewrite getFlowState_healthy by reflexivity.
  cbn [store]. rewrite Hkey, lookup_insert_eq. unfold ret.
  intros E. inversion E; subst reply w'; clear E.
  destruct (updateFlowState_frame fs analysis) as (_ & Htq & Hqa & _ & _).
  subst final. rewrite Hn, Hs.
  split; [|reflexivity].
  cbn [fst NextQuestionRoute.orZero push_history totalQuestions questionsAsked].
  rewrite Htq, Hqa. reflexivity.
Qed.

(** The flow-status read answers, for a present session, an accepted
    read and a stored document, with that document, with the flag that says
    whether questions remain and with its summary; and it leaves the
    store as it was. *)
Theorem flow_status_found sessionId w fs :
  Text.truthy_str (Some sessionId) = true ->
  fst (next_fault w) = false ->
  store w !! sessionId = Some fs ->
  fst (FlowStatusRoute.GET (Some sessionId) w) =
    FlowStatusRoute.Status fs (questionsAsked fs <? totalQuestions fs)
      (generateInterviewSummary fs) /\
  store (snd (FlowStatusRoute.GET (Some sessionId) w)) = store w.
Proof.
  intros Ht Hf Hst.
  pose proof (next_fault_frame w) as (Hs & _ & _).
  destruct (FlowStatusRoute.GET (Some sessionId) w) as [reply w'] eqn:E.
  revert E. unfold FlowStatusRoute.GET, FlowStatusRoute.handleGET.
  destruct sessionId as [|c r]; [discriminate Ht|].
  unfold bind at 1. rewrite getFlowState_outcome, Hf, Hst.
  intros E. inversion E; subst; clear E. simpl. auto.
Qed.

(** X22. On a store that accepts every call, deleting a present session
    succeeds whether or not a document was stored for it; a flow-status read
    of that session afterwards is answered with status 404, and the
    documents of all other sessions are as before. *)
Theorem flow_status_delete_then_get sessionId w :
  Text.truthy_str (Some sessionId) = true ->
  dbFaults w = [] ->
  fst (FlowStatusRoute.DELETE (Some sessionId) w) =
    FlowStatusRoute.Cleaned "Adaptive flow state cleaned up successfully" /\
  fst (FlowStatusRoute.GET (Some sessionId)
         (snd (FlowStatusRoute.DELETE (Some sessionId) w))) =
    FlowStatusRoute.Failure 404 "Flow state not found" /\
  forall other, other <> sessionId ->
    store (snd (FlowStatusRoute.DELETE (Some sessionId) w)) !! other =
    store w !! other.
Proof.
  intros Ht Hf.
  assert (E : FlowStatusRoute.DELETE (Some sessionId) w =
              (FlowStatusRoute.Cleaned "Adaptive flow state cleaned up successfully",
               set_store (delete sessionId (store w)) w)).
  { unfold FlowStatusRoute.DELETE, FlowStatusRoute.handleDELETE.
    destruct sessionId as [|c r]; [discriminate Ht|].
    unfold bind, FlowStatusRoute.db_delete.
    rewrite (next_fault_healthy w Hf). reflexivity. }
  rewrite E. cbn [fst snd]. split; [reflexivity|]. split.
  - unfold FlowStatusRoute.GET, FlowStatusRoute.handleGET.
    destruct sessionId as [|c r]; [discriminate Ht|].
    unfold bind. rewrite getFlowState_healthy by exact Hf.
    cbn [store set_store]. rewrite lookup_delete_eq. reflexivity.
  - intros other Hne. cbn [store set_store].
    apply lookup_delete_ne. congruence.
Qed.

(** X23. The analyze-response endpoint is stateless: whatever the request
    and the world, it makes no call to the store, so the documents and the
    script of store faults are as before. *)
Theorem analyze_response_stateless (body : AnalyzeResponseRoute.Body) w :
  store (snd (AnalyzeResponseRoute.POST JSON_parse body w)) = store w /\
  dbFaults (snd (AnalyzeResponseRoute.POST JSON_parse body w)) = dbFaults w.
Proof.
  unfold AnalyzeResponseRoute.POST, AnalyzeResponseRoute.handle.
  destruct (AnalyzeResponseRoute.b_userResponse body) as [[|c1 r1]|];
    destruct (AnalyzeResponseRoute.b_currentQuestion body) as [[|c2 r2]|];
    destruct (AnalyzeResponseRoute.b_role body) as [[|c3 r3]|];
    try (split; reflexivity).
  unfold bind.
  pose proof (analyzeUserResponse_frame JSON_parse (String c1 r1) (String c2 r2)
                (String c3 r3)
                (AnalyzeResponseRoute.asArray (AnalyzeResponseRoute.b_techStack body))
                (AnalyzeResponseRoute.orFive
                   (AnalyzeResponseRoute.b_currentDifficulty body)) w) as H.
  destruct (analyzeUserResponse JSON_parse (String c1 r1) (String c2 r2)
              (String c3 r3) _ _ w) as [[e|v] w1]; exact H.
Qed.

(** X24. When the reply of the service does not parse, the analyze-response
    endpoint answers with the fallback analysis, whose suggested difficulty
    is the difficulty of the request, or 5 when the request has none or has
    zero. *)
Theorem analyze_response_fallback_difficulty (body : AnalyzeResponseRoute.Body)
    w text rest :
  Text.truthy_str (AnalyzeResponseRoute.b_userResponse body) = true ->
  Text.truthy_str (AnalyzeResponseRoute.b_currentQuestion body) = true ->
  Text.truthy_str (AnalyzeResponseRoute.b_role body) = true ->
  genReplies w = Some text :: rest ->
  JSON_parse (Text.trim text) = None ->
  fst (AnalyzeResponseRoute.POST JSON_parse body w) =
    AnalyzeResponseRoute.Analyzed
      (encodeAnalysis
         (fallbackAnalysis
            match AnalyzeResponseRoute.b_currentDifficulty body with
            | Some n => if n =? 0 then 5 else n
            | None => 5
            end))
      "Response analyzed successfully".
Proof.
  intros Ht1 Ht2 Ht3 Hg Hp.
  unfold AnalyzeResponseRoute.POST, AnalyzeResponseRoute.handle.
  destruct (AnalyzeResponseRoute.b_userResponse body) as [[|c1 r1]|];
    try discriminate Ht1.
  destruct (AnalyzeResponseRoute.b_currentQuestion body) as [[|c2 r2]|];
    try discriminate Ht2.
  destruct (AnalyzeResponseRoute.b_role body) as [[|c3 r3]|];
    try discriminate Ht3.
  unfold bind at 1. unfold analyzeUserResponse. unfold bind at 1.
  unfold generateText. rewrite Hg, Hp. reflexivity.
Qed.

End HealthyStore.

Lemma next_question_missing_parameter_witness :
  NextQuestionRoute.POST Json.parseJson
    {| NextQuestionRoute.b_sessionId := Some "session-1"%string;
       NextQuestionRoute.b_userResponse := Some EmptyString;
       NextQuestionRoute.b_currentQuestion := Some "Last question?"%string |}
    (worldOf {[ "session-1"%string := freshState 5 ]} [] [Some "unused"%string]) =
    (NextQuestionRoute.Failure 400 "Missing required parameters",
     worldOf {[ "session-1"%string := freshState 5 ]} [] [Some "unused"%string]).
Proof.
  apply (next_question_missing_parameter Json.parseJson).
  right. left. reflexivity.
Defined.

Lemma next_question_not_found_witness :
  fst (NextQuestionRoute.POST Json.parseJson finalAnswerBody
         (worldOf {[ "session-1"%string := freshState 5 ]} [true]
            [Some "unused"%string])) =
    NextQuestionRoute.Failure 404 "Flow state not found. Please initialize first.".
Proof.
  exact (proj1 (next_question_not_found Json.parseJson finalAnswerBody
                  "session-1"
                  (worldOf {[ "session-1"%string := freshState 5 ]} [true]
                     [Some "unused"%string])
                  eq_refl eq_refl eq_refl eq_refl (or_introl eq_refl))).
Defined.

Lemma next_question_continue_witness :
  fst (NextQuestionRoute.POST Json.parseJson finalAnswerBody
         (worldOf {[ "session-1"%string := freshState 5 ]} []
            [Some "no analysis"%string; Some "What is JSX?"%string])) =
    NextQuestionRoute.Continue "What is JSX?"
      (Some (push_history (updateFlowState (freshState 5) (fallbackAnalysis 5))
               {| question := "What is JSX?";
                  timestamp := "2025-01-01T00:00:00.000Z";
                  difficulty := 5; category := "adaptive" |}))
      9.
Proof.
  assert (Hst : store (worldOf {[ "session-1"%string := freshState 5 ]} []
                         [Some "no analysis"%string; Some "What is JSX?"%string])
                !! "session-1"%string = Some (freshState 5))
    by apply lookup_singleton_eq.
  refine (proj1 (next_question_continue Json.parseJson finalAnswerBody
            "session-1" "My final answer" "Last question?"
            (worldOf {[ "session-1"%string := freshState 5 ]} []
               [Some "no analysis"%string; Some "What is JSX?"%string])
            (worldOf {[ "session-1"%string := freshState 5 ]} []
               [Some "What is JSX?"%string])
            (freshState 5) (encodeAnalysis (fallbackAnalysis 5))
            (fallbackAnalysis 5) "What is JSX?" []
            eq_refl eq_refl eq_refl eq_refl eq_refl eq_refl eq_refl Hst eq_refl
            _ eq_refl eq_refl eq_refl)).
  simpl; lia.
Defined.

Lemma initialize_missing_parameter_witness :
  InitializeFlowRoute.POST Json.parseJson
    {| InitializeFlowRoute.b_sessionId := Some "session-1"%string;
       InitializeFlowRoute.b_role := Some "Frontend Developer"%string;
       InitializeFlowRoute.b_techStack := Some (InitializeFlowRoute.One EmptyString);
       InitializeFlowRoute.b_baseDifficulty := Some 5;
       InitializeFlowRoute.b_totalQuestions := None |}
    (worldOf ∅ [] [Some "[]"%string]) =
    (InitializeFlowRoute.Failure 400 "Missing required parameters",
     worldOf ∅ [] [Some "[]"%string]).
Proof.
  apply (initialize_missing_parameter Json.parseJson).
  right. right. left. reflexivity.
Defined.

Lemma initialize_success_witness :
  exists questions,
    fst (InitializeFlowRoute.POST Json.parseJson (initializeBody 0 (Some 0))
           (worldOf ∅ [] [Some "[]"%string])) =
      InitializeFlowRoute.Initialized
        {| sessionId := "session-1"; currentDifficulty := 0; baseDifficulty := 0;
           consecutiveCorrect := 0; consecutiveIncorrect := 0;
           totalQuestions := 10; questionsAsked := 0; mvpKeywords := [];
           role := "Frontend Developer"; techStack := ["React"%string];
           questionHistory := []; lastAnalysis := None |}
        questions "Adaptive flow initialized successfully".
Proof.
  destruct (initialize_success Json.parseJson (initializeBody 0 (Some 0))
              "session-1" "Frontend Developer" (InitializeFlowRoute.One "React") 0
              (worldOf ∅ [] [Some "[]"%string]) "[]" []
              eq_refl eq_refl eq_refl eq_refl eq_refl eq_refl eq_refl eq_refl
              eq_refl) as (questions & H & _).
  exists questions. exact H.
Defined.

Lemma initialize_failures_witness :
  fst (InitializeFlowRoute.POST Json.parseJson (initializeBody 5 None)
         (worldOf ∅ [true] [Some "[]"%string])) =
    InitializeFlowRoute.Failure 500 "Failed to initialize adaptive flow" /\
  genReplies (snd (InitializeFlowRoute.POST Json.parseJson (initializeBody 5 None)
                     (worldOf ∅ [true] [Some "[]"%string]))) =
    [Some "[]"%string].
Proof.
  destruct (proj1 (initialize_failures Json.parseJson (initializeBody 5 None)
                     "session-1" "Frontend Developer"
                     (InitializeFlowRoute.One "React") 5
                     (worldOf ∅ [true] [Some "[]"%string])
                     eq_refl eq_refl eq_refl eq_refl eq_refl eq_refl eq_refl)
              eq_refl) as (Hr & _ & Hg).
  split; [exact Hr|exact Hg].
Defined.

Lemma flow_status_found_witness :
  fst (FlowStatusRoute.GET (Some "session-1"%string)
         (worldOf {[ "session-1"%string := finishedState ]} [] [])) =
    FlowStatusRoute.Status finishedState false
      (generateInterviewSummary finishedState).
Proof.
  assert (Hst : store (worldOf {[ "session-1"%string := finishedState ]} [] [])
                !! "session-1"%string = Some finishedState)
    by apply lookup_singleton_eq.
  exact (proj1 (flow_status_found "session-1"
                  (worldOf {[ "session-1"%string := finishedState ]} [] [])
                  finishedState eq_refl eq_refl Hst)).
Defined.

Lemma flow_status_delete_then_get_witness :
  fst (FlowStatusRoute.GET (Some "session-1"%string)
         (snd (FlowStatusRoute.DELETE (Some "session-1"%string)
                 (worldOf {[ "session-1"%string := finishedState ]} [] [])))) =
    FlowStatusRoute.Failure 404 "Flow state not found".
Proof.
  exact (proj1 (proj2 (flow_status_delete_then_get "session-1"
                  (worldOf {[ "session-1"%string := finishedState ]} [] [])
                  eq_refl eq_refl))).
Defined.

Lemma analyze_response_fallback_difficulty_witness :
  fst (AnalyzeResponseRoute.POST Json.parseJson analyzeBody
         (worldOf ∅ [] [Some "no analysis"%string])) =
    AnalyzeResponseRoute.Analyzed (encodeAnalysis (fallbackAnalysis 5))
      "Response analyzed successfully".
Proof.
  exact (analyze_response_fallback_difficulty Json.parseJson analyzeBody
           (worldOf ∅ [] [Some "no analysis"%string]) "no analysis" []
           eq_refl eq_refl eq_refl eq_refl eq_refl).
Defined.

(* ===================================================================== *)
(** * Further properties of the recorder and of the message handler *)
(* ===================================================================== *)

Section Recorder.

Import Interruption.

Implicit Types (h : InterruptionHandler) (st : HandlerState) (m : Message).

Lemma metrics_agree_new cfg : metrics_agree (new_InterruptionHandler cfg).
Proof.
  unfold metrics_agree. simpl. repeat split; auto; try lia;
    try (intros d []).
Qed.

Lemma metrics_agree_record h start detected :
  metrics_agree h -> metrics_agree (recordInterruption h start detected).
Proof.
  unfold metrics_agree. intros (Hn & Hfast & H0 & Hmax & Hin).
  unfold recordInterruption. cbn [metrics interruptionTimes totalInterruptions
    fastestInterruption slowestInterruption].
  set (delay := detected - start).
  split; [rewrite length_app, Hn; simpl; lia|].
  split.
  - destruct (fastestInterruption (metrics h)) as [|f]; simpl.
    + rewrite Hfast. simpl. split; [auto|]. intros d [<- | []]. lia.
    + destruct Hfast as [Hf Hmin].
      destruct (Z.ltb_spec delay f).
      * split; [apply in_or_app; right; left; reflexivity|].
        intros d Hd. apply in_app_or in Hd as [Hd | [<- | []]]; [|lia].
        specialize (Hmin d Hd). lia.
      * split; [apply in_or_app; left; exact Hf|].
        intros d Hd. apply in_app_or in Hd as [Hd | [<- | []]]; [|lia].
        apply Hmin, Hd.
  - destruct (Z.ltb_spec (slowestInterruption (metrics h)) delay).
    + split; [lia|]. split.
      * intros d Hd. apply in_app_or in Hd as [Hd | [<- | []]]; [|lia].
        specialize (Hmax d Hd). lia.
      * right. apply in_or_app. right. left. reflexivity.
    + split; [exact H0|]. split.
      * intros d Hd. apply in_app_or in Hd as [Hd | [<- | []]]; [|lia].
        apply Hmax, Hd.
      * destruct Hin as [Hz | Hi]; [left; exact Hz|].
        right. apply in_or_app. left. exact Hi.
Qed.

(** X25. Whatever calls a client makes on a new recorder (recording
    interruptions, reporting cancellations, resetting), the statistics agree
    with the list of recorded delays: the count is the length of the list,
    the fastest delay is its minimum, or infinity when the list is empty, and
    the slowest delay is its maximum, or 0 when no delay is positive. *)
Theorem recorder_statistics_agree cfg (cs : list RecorderCall) :
  metrics_agree (recorderCalls (new_InterruptionHandler cfg) cs).
Proof.
  unfold recorderCalls.
  generalize (metrics_agree_new cfg).
  generalize (new_InterruptionHandler cfg).
  induction cs as [|c cs IH]; intros h Hh; simpl; [exact Hh|].
  apply IH. destruct c; simpl.
  - apply metrics_agree_record, Hh.
  - exact Hh.
  - exact Hh.
  - apply (metrics_agree_new (config h)).
Qed.

(** The handler by the type of the message: the six tests of the source
    exclude one another. *)
Lemma onMessage_by_type st timestamp m :
  onMessage st timestamp m =
    if String.eqb (type m) "speech-start" then
      if propIs "assistant" (role m)
      then call onSpeechStart (set_start (Some timestamp) st) else st
    else if String.eqb (type m) "speech-end" then
      if propIs "assistant" (role m)
      then call onSpeechEnd (set_start None st) else st
    else if String.eqb (type m) "transcript" then
      if propIs "user" (role m) && propIs "partial" (transcriptType m) then
        match started st with
        | Some start => call onInterruption (record start timestamp st)
        | None => st
        end
      else st
    else if String.eqb (type m) "user-interrupted" then
      call onInterruption
        match started st with
        | Some start => record start timestamp st
        | None => st
        end
    else if String.eqb (type m) "voice-input" then
      match started st with
      | Some start => call onInterruption (record start timestamp st)
      | None => st
      end
    else if String.eqb (type m) "speech-update" then
      if propIs "user" (role m) && propIs "started" (status m) then
        match started st with
        | Some start => call onInterruption (record start timestamp st)
        | None => st
        end
      else st
    else st.
Proof.
  unfold onMessage.
  destruct (String.eqb_spec (type m) "speech-start") as [E|_].
  { rewrite E. simpl. destruct (propIs "assistant" (role m)); reflexivity. }
  destruct (String.eqb_spec (type m) "speech-end") as [E|_].
  { rewrite E. simpl. destruct (propIs "assistant" (role m)); reflexivity. }
  destruct (String.eqb_spec (type m) "transcript") as [E|_].
  { rewrite E. simpl.
    destruct (propIs "user" (role m)), (propIs "partial" (transcriptType m)),
      (started st); reflexivity. }
  destruct (String.eqb_spec (type m) "user-interrupted") as [E|_].
  { rewrite E. simpl. destruct (started st); reflexivity. }
  destruct (String.eqb_spec (type m) "voice-input") as [E|_].
  { rewrite E. simpl. destruct (started st); reflexivity. }
  simpl.
  destruct (String.eqb (type m) "speech-update");
    destruct (propIs "user" (role m)), (propIs "started" (status m));
    simpl; destruct (started st); reflexivity.
Qed.

Lemma started_set st start :
  aiSpeechStartTime st = Some start -> start <> 0 -> started st = Some start.
Proof.
  unfold started. intros -> H.
  destruct (Z.eqb_spec start 0); [contradiction|reflexivity].
Qed.

(** One interruption-class event while the start time is set. *)
Lemma onMessage_interruption st timestamp m start :
  interruption_class m = true ->
  aiSpeechStartTime st = Some start -> start <> 0 ->
  onMessage st timestamp m = call onInterruption (record start timestamp st).
Proof.
  intros Hc Hs Hz. rewrite onMessage_by_type, (started_set st start Hs Hz).
  revert Hc. unfold interruption_class.
  destruct (String.eqb_spec (type m) "speech-start") as [E|_].
  { rewrite E. simpl. discriminate. }
  destruct (String.eqb_spec (type m) "speech-end") as [E|_].
  { rewrite E. simpl. discriminate. }
  destruct (String.eqb_spec (type m) "transcript") as [E|_].
  { rewrite E. simpl. rewrite !orb_false_r. intros ->. reflexivity. }
  destruct (String.eqb (type m) "user-interrupted"); [reflexivity|].
  destruct (String.eqb (type m) "voice-input"); [reflexivity|].
  destruct (String.eqb (type m) "speech-update"); simpl; [|discriminate].
  intros ->. reflexivity.
Qed.

(** X26. While the assistant speaks, from a start time other than zero,
    each of the four interruption-class events (a partial transcript of the
    user, with or without text, the user-interrupted event, the voice-input
    event, the started speech update of the user) records exactly one
    interruption whose delay is the clock reading minus the start time,
    calls the interruption callback once and keeps the start time. *)
Theorem interruption_events_record st timestamp m start :
  interruption_class m = true ->
  aiSpeechStartTime st = Some start -> start <> 0 ->
  interruptionTimes (handler (onMessage st timestamp m)) =
    interruptionTimes (handler st) ++ [timestamp - start] /\
  calls (onMessage st timestamp m) = calls st ++ [onInterruption] /\
  aiSpeechStartTime (onMessage st timestamp m) = Some start.
Proof.
  intros Hc Hs Hz. rewrite (onMessage_interruption st timestamp m start Hc Hs Hz).
  simpl. auto.
Qed.

(** X27. The start time is not cleared by an interruption: a sequence of
    interruption-class events that arrive while it is set records one
    interruption per event, each measured from the same start, and calls the
    interruption callback once per event. *)
Theorem every_interruption_event_counts events st start :
  Forall (fun e => interruption_class (snd e) = true) events ->
  aiSpeechStartTime st = Some start -> start <> 0 ->
  interruptionTimes (handler (onMessages st events)) =
    interruptionTimes (handler st) ++ map (fun e => fst e - start) events /\
  calls (onMessages st events) =
    calls st ++ repeat onInterruption (length events).
Proof.
  unfold onMessages. revert st.
  induction events as [|[ts m] events IH]; intros st Hall Hs Hz.
  - simpl. rewrite !app_nil_r. auto.
  - inversion Hall as [|e es Hm Hrest]; subst. simpl in Hm.
    cbn [fold_left fst snd].
    rewrite (onMessage_interruption st ts m start Hm Hs Hz).
    destruct (IH (call onInterruption (record start ts st)) Hrest Hs Hz)
      as [Ht Hcalls].
    rewrite Ht, Hcalls. simpl. rewrite <- !app_assoc. auto.
Qed.

(** A message other than a speech start of the assistant leaves an unset
    start time unset. *)
Lemma onMessage_stays_unset st timestamp m :
  aiSpeechStartTime st = None -> ~ assistant_speech_start m ->
  aiSpeechStartTime (onMessage st timestamp m) = None.
Proof.
  intros Hs Hn. rewrite onMessage_by_type, (started_unset st Hs).
  destruct (String.eqb_spec (type m) "speech-start") as [E|_].
  { unfold propIs. destruct (role m) as [r|] eqn:Er; [|exact Hs].
    destruct (String.eqb_spec "assistant" r) as [<-|_]; [|exact Hs].
    exfalso. apply Hn. split; assumption. }
  repeat match goal with
         | |- context [if ?b then _ else _] => destruct b
         end; simpl; auto.
Qed.

(** X28. After a speech end of the assistant no event is recorded until the
    assistant starts to speak again: the speech end itself and every
    sequence of messages without a speech start of the assistant leave the
    recorder as it was. *)
Theorem speech_end_stops_recording st timestamp m events :
  assistant_speech_end m ->
  Forall (fun e => ~ assistant_speech_start (snd e)) events ->
  handler (onMessages (onMessage st timestamp m) events) = handler st.
Proof.
  intros [Ht Hr] Hall.
  assert (H1 : handler (onMessage st timestamp m) = handler st /\
               aiSpeechStartTime (onMessage st timestamp m) = None).
  { rewrite onMessage_by_type, Ht, Hr. simpl. auto. }
  destruct H1 as [Hh Hs]. rewrite <- Hh. clear Hh.
  revert Hs. generalize (onMessage st timestamp m).
  unfold onMessages.
  induction events as [|[ts m'] events IH]; intros st' Hs; [reflexivity|].
  inversion Hall as [|e es Hm Hrest]; subst. simpl in Hm.
  cbn [fold_left fst snd].
  rewrite (IH Hrest (onMessage st' ts m')
             (onMessage_stays_unset st' ts m' Hs Hm)).
  apply onMessage_unset_records_nothing, Hs.
Qed.

(** X29. One message records at most one interruption, and only from the
    stored start time: after any message the recorder is as before or has
    one more record, measured from the start time that was stored, which is
    then not zero.  A transcript that is not partial never records. *)
Theorem at_most_one_record_per_message st timestamp m :
  (handler (onMessage st timestamp m) = handler st \/
   exists start,
     aiSpeechStartTime st = Some start /\ start <> 0 /\
     handler (onMessage st timestamp m) =
       recordInterruption (handler st) start timestamp) /\
  (type m = "transcript"%string -> transcriptType m <> Some "partial"%string ->
   handler (onMessage st timestamp m) = handler st).
Proof.
  rewrite onMessage_by_type.
  assert (Hstart : forall start, started st = Some start ->
                     aiSpeechStartTime st = Some start /\ start <> 0).
  { unfold started. intros start.
    destruct (aiSpeechStartTime st) as [t|]; [|discriminate].
    destruct (Z.eqb_spec t 0); [discriminate|].
    intros H; inversion H; subst. auto. }
  split.
  - destruct (started st) as [start|] eqn:Es.
    + destruct (Hstart start eq_refl) as [Hs Hz].
      repeat match goal with
             | |- context [if ?b then _ else _] => destruct b
             end; simpl; auto; right; exists start; auto.
    + repeat match goal with
             | |- context [if ?b then _ else _] => destruct b
             end; simpl; auto.
  - intros Ht Hp. rewrite Ht. simpl.
    assert (propIs "partial" (transcriptType m) = false) as ->.
    { unfold propIs. destruct (transcriptType m) as [t|]; [|reflexivity].
      destruct (String.eqb_spec "partial" t) as [<-|_]; [|reflexivity].
      exfalso. apply Hp. reflexivity. }
    rewrite andb_false_r. reflexivity.
Qed.

(** The user-interrupted event calls the interruption callback even
    when there is no start time to measure from; nothing is recorded then. *)
Theorem user_interrupted_without_start st timestamp m :
  type m = "user-interrupted"%string ->
  aiSpeechStartTime st = None ->
  calls (onMessage st timestamp m) = calls st ++ [onInterruption] /\
  handler (onMessage st timestamp m) = handler st.
Proof.
  intros Ht Hs. rewrite onMessage_by_type, Ht, (started_unset st Hs).
  simpl. auto.
Qed.

(** X30. The listener of the interview component makes a new handler, with
    the start time unset, for every message; so no message, and no sequence
    of messages, ever changes the recorder that the component holds. *)
Theorem component_never_records h (events : list (Z * Message)) :
  AgentComponent.onMessages_recorder h events = h.
Proof.
  unfold AgentComponent.onMessages_recorder.
  induction events as [|[ts m] events IH]; [reflexivity|].
  cbn [fold_left fst snd].
  assert (AgentComponent.onMessage_recorder h ts m = h) as ->; [|exact IH].
  unfold AgentComponent.onMessage_recorder.
  apply (onMessage_unset_records_nothing
           (createInterruptionAwareMessageHandler h) ts m eq_refl).
Qed.

End Recorder.


Lemma interruption_events_record_witness :
  interruption_class voiceInputMessage = true /\
  Interruption.aiSpeechStartTime speakingState = Some 1700000000000 /\
  Interruption.interruptionTimes
    (Interruption.handler
       (Interruption.onMessage speakingState 1700000000080 voiceInputMessage)) =
    [80].
Proof.
  split; [reflexivity|]. split; [reflexivity|].
  refine (proj1 (interruption_events_record speakingState 1700000000080
                   voiceInputMessage 1700000000000 eq_refl eq_refl _)).
  lia.
Defined.

Lemma every_interruption_event_counts_witness :
  Interruption.interruptionTimes
    (Interruption.handler
       (onMessages speakingState
          [(1700000000050, partialTranscriptMessage "wa");
           (1700000000090, partialTranscriptMessage "wait");
           (1700000000120, voiceInputMessage)])) = [50; 90; 120].
Proof.
  refine (proj1 (every_interruption_event_counts
                   [(1700000000050, partialTranscriptMessage "wa");
                    (1700000000090, partialTranscriptMessage "wait");
                    (1700000000120, voiceInputMessage)]
                   speakingState 1700000000000 _ eq_refl _)).
  - repeat constructor.
  - lia.
Defined.

Lemma speech_end_stops_recording_witness :
  assistant_speech_end speechEndMessage /\
  Interruption.handler
    (onMessages
       (Interruption.onMessage speakingState 1700000002000 speechEndMessage)
       [(1700000002100, partialTranscriptMessage "so");
        (1700000002200, voiceInputMessage)]) =
    Interruption.handler speakingState.
Proof.
  assert (He : assistant_speech_end speechEndMessage) by (split; reflexivity).
  split; [exact He|].
  apply (speech_end_stops_recording speakingState 1700000002000
           speechEndMessage
           [(1700000002100, partialTranscriptMessage "so");
            (1700000002200, voiceInputMessage)] He).
  repeat constructor; intros [H _]; discriminate H.
Defined.

Lemma user_interrupted_without_start_witness :
  Interruption.calls
    (Interruption.onMessage newHandlerState 1700000000000 userInterruptedMessage) =
    [Interruption.onInterruption].
Proof.
  exact (proj1 (user_interrupted_without_start newHandlerState 1700000000000
                  userInterruptedMessage eq_refl eq_refl)).
Defined.
